(** * Offer persistence adapter and UI file service

    A shallow embedding of [OfferRepository] (the adapter between the domain
    [Offer], the bookshelf models and the payment provider) and of the
    [uploadImage] helper of [ServiceProvider.tsx].

    Asynchronous JavaScript is embedded as a small free monad: a program is a
    tree of requests to the collaborators (ORM models, payment provider, API
    client); every request settles to a rejection or a value, and [await]
    rethrows a rejection. An environment answers the requests, and [run] yields
    the result of the program together with the trace of what was requested. *)

From Stdlib Require Import String List ZArith Bool Lia.
Import ListNotations.
Local Open Scope string_scope.

(** ** Failures *)

(** What an [async] function can fail with: an exception of the runtime
    (reading a property of [null] or [undefined]) or the rejection of a
    collaborator's promise, carried as it was received. *)
Inductive Error : Type :=
| TypeError (msg : string)
| Rejection (reason : string).

(** A settled promise. *)
Definition Settled (X : Type) : Type := (Error + X)%type.

(** ** Mongo-style query objects *)

(** The filter handed to the storage layer is parsed into a query object: an
    object whose keys are either field names, bound to a value or to an object
    of comparison operators, or the logical operators [$and] / [$or], bound to
    an array of query objects. *)
Inductive Scalar : Type :=
| SNull
| SBool (b : bool)
| SNum (n : Z)
| SStr (s : string).

Inductive Operand : Type :=
| One (s : Scalar)
| Many (ss : list Scalar).

Inductive Value : Type :=
| Lit (s : Scalar)
| Ops (ops : list (string * Operand)).

Inductive LogicalOp : Type :=
| And
| Or.

Definition LogicalOp_key (op : LogicalOp) : string :=
  match op with
  | And => "$and"
  | Or => "$or"
  end.

#[local] Unset Elimination Schemes.
Inductive Entry : Type :=
| Field (key : string) (v : Value)
| Group (op : LogicalOp) (qs : list (list Entry)).
#[local] Set Elimination Schemes.

Definition Query : Type := list Entry.

Definition entry_key (e : Entry) : string :=
  match e with
  | Field key _ => key
  | Group op _ => LogicalOp_key op
  end.

Definition Scalar_eqb (a b : Scalar) : bool :=
  match a, b with
  | SNull, SNull => true
  | SBool x, SBool y => Bool.eqb x y
  | SNum x, SNum y => Z.eqb x y
  | SStr x, SStr y => String.eqb x y
  | _, _ => false
  end.

(** ** Data *)

Definition Transaction : Type := nat.

(** The options bag passed to the models. A property that is not set is
    [None]; an [undefined] bag is [None : option Options.t]. *)
Module Options.
Record t : Type := make {
  transacting : option Transaction;
  filter : option string;
  withRelated : option (list string);
  id : option string;
  mongoTransformer : option (Query -> Query)
}.
Definition empty : t := make None None None None None.
Definition set_withRelated (o : t) (r : list string) : t :=
  make (transacting o) (filter o) (Some r) (id o) (mongoTransformer o).
Definition set_id (o : t) (i : string) : t :=
  make (transacting o) (filter o) (withRelated o) (Some i) (mongoTransformer o).
Definition set_mongoTransformer (o : t) (f : Query -> Query) : t :=
  make (transacting o) (filter o) (withRelated o) (id o) (Some f).
End Options.

(** [{...options}] : spreading [undefined] gives the empty object. *)
Definition spread (options : option Options.t) : Options.t :=
  match options with
  | Some o => o
  | None => Options.empty
  end.

(** The related product row, as joined by [withRelated: ['product']]. *)
Module Product.
Record t : Type := make { id : string; name : string }.
End Product.

(** [model.toJSON()] of an offer row. *)
Module Row.
Record t : Type := make {
  id : string;
  name : string;
  code : string;
  portal_title : string;
  portal_description : string;
  discount_type : string;
  discount_amount : Z;
  interval : string;
  currency : option string;
  duration : string;
  duration_in_months : option Z;
  stripe_coupon_id : option string;
  active : bool;
  product : option Product.t
}.
End Row.

(** The [data] object that [save] hands to [OfferModel.add] / [edit].
    [stripe_coupon_id] is [None] while the property is not set. *)
Module Data.
Record t : Type := make {
  id : string;
  name : string;
  code : string;
  portal_title : string;
  portal_description : string;
  discount_type : string;
  discount_amount : Z;
  interval : string;
  product_id : string;
  duration : string;
  duration_in_months : option Z;
  currency : option string;
  active : bool;
  stripe_coupon_id : option string
}.
Definition set_stripe_coupon_id (d : t) (c : string) : t :=
  make (id d) (name d) (code d) (portal_title d) (portal_description d)
       (discount_type d) (discount_amount d) (interval d) (product_id d)
       (duration d) (duration_in_months d) (currency d) (active d) (Some c).
End Data.

(** A domain value object: [x.value]. *)
Record ValueObject (T : Type) : Type := VO { value : T }.
Arguments VO {T} _.
Arguments value {T} _.

Module Tier.
Record t : Type := make { id : string; name : string }.
End Tier.

(** [offer.duration.value] *)
Module Duration.
Record t : Type := make { type : string; months : option Z }.
End Duration.

(** [OfferStatus]: [create] wraps the string, [equals] compares the values. *)
Module OfferStatus.
Definition t : Type := ValueObject string.
Definition create (s : string) : t := VO s.
Definition equals (a b : t) : bool := String.eqb (value a) (value b).
End OfferStatus.

(** The properties of a domain [Offer] that the repository reads. *)
Module Offer.
Record t : Type := make {
  id : string;
  name : ValueObject string;
  code : ValueObject string;
  displayTitle : ValueObject string;
  displayDescription : ValueObject string;
  type : ValueObject string;
  amount : ValueObject Z;
  cadence : ValueObject string;
  tier : Tier.t;
  duration : ValueObject Duration.t;
  currency : option (ValueObject string);
  status : OfferStatus.t;
  redemptionCount : Z;
  stripeCouponId : option string;
  isNew : bool;
  codeChanged : bool;
  oldCode : option (ValueObject string)
}.

(** The object literal that [mapToOffer] passes to [Offer.create]. *)
Record props : Type := make_props {
  p_id : string;
  p_name : string;
  p_code : string;
  p_display_title : string;
  p_display_description : string;
  p_type : string;
  p_amount : Z;
  p_cadence : string;
  p_currency : option string;
  p_duration : string;
  p_duration_in_months : option Z;
  p_redemptionCount : Z;
  p_stripe_coupon_id : option string;
  p_status : string;
  p_tier : Tier.t
}.
End Offer.

(** [OfferCodeChangeEvent.create({offerId, previousCode, currentCode})] *)
Module OfferCodeChangeEvent.
Record t : Type := create {
  offerId : string;
  previousCode : option (ValueObject string);
  currentCode : ValueObject string
}.
End OfferCodeChangeEvent.

(** [Stripe.CouponCreateParams]; a property never assigned is [None]. *)
Module Coupon.
Record t : Type := make {
  name : string;
  duration : string;
  duration_in_months : option Z;
  percent_off : option Z;
  amount_off : option Z;
  currency : option string
}.
End Coupon.

Module CouponData.
Record t : Type := make { id : string }.
End CouponData.

(** The image API: [images.upload({file}) -> {images: [{url}]}]. *)
Module Image.
Record t : Type := make { url : string }.
End Image.

Module UploadResponse.
Record t : Type := make { images : list Image.t }.
End UploadResponse.

Definition File : Type := string.

(** The object given to [OfferModel.findOne]: [{name}], [{code}] or [{id}]. *)
Inductive FindQuery : Type :=
| ByName (name : string)
| ByCode (code : string)
| ById (id : string).

(** ** Requests to the collaborators *)

Inductive Call : Type -> Type :=
| OfferModel_findOne (q : FindQuery) (options : option Options.t) : Call (option Row.t)
| OfferModel_findAll (options : Options.t) : Call (list Row.t)
| OfferModel_add (data : Data.t) (options : option Options.t) : Call unit
| OfferModel_edit (data : Data.t) (options : Options.t) : Call unit
| OfferRedemptionModel_count (offer_id : string) (column : string) (options : Options.t) : Call Z
| stripeAPIService_createCoupon (coupon : Coupon.t) : Call CouponData.t
| images_upload (file : File) : Call UploadResponse.t.

(** ** Programs *)

(** [Emit] is [DomainEvents.dispatch]: a synchronous enqueue that returns
    nothing and does not fail. [Request] starts a call; its continuation
    receives the settled promise. *)
Inductive Prog (A : Type) : Type :=
| Ret (a : A)
| Throw (e : Error)
| Emit (ev : OfferCodeChangeEvent.t) (k : Prog A)
| Request (X : Type) (c : Call X) (k : Settled X -> Prog A).

Arguments Ret {A} _.
Arguments Throw {A} _.
Arguments Emit {A} _ _.
Arguments Request {A X} _ _.

Fixpoint bind {A B : Type} (p : Prog A) (f : A -> Prog B) : Prog B :=
  match p with
  | Ret a => f a
  | Throw e => Throw e
  | Emit ev k => Emit ev (bind k f)
  | Request c k => Request c (fun r => bind (k r) f)
  end.

(** [await promise]: the value, or the rejection rethrown as it is. *)
Definition await {X : Type} (c : Call X) : Prog X :=
  Request c (fun r => match r with
                      | inl e => Throw e
                      | inr x => Ret x
                      end).

Declare Scope prog_scope.
Delimit Scope prog_scope with prog.
Notation "x <- p ;; q" := (bind p (fun x => q))
  (at level 61, p at next level, right associativity) : prog_scope.
Notation "p ;; q" := (bind p (fun _ => q))
  (at level 61, right associativity) : prog_scope.
Local Open Scope prog_scope.

(** What an observer of a run sees, in order. *)
Inductive Event : Type :=
| Dispatched (ev : OfferCodeChangeEvent.t)
| Called (X : Type) (c : Call X) (r : Settled X).
Arguments Called {X} _ _.

(** The collaborators: how each call settles and what a dispatched event does,
    both over a state [W] of the outside world. *)
Record Env (W : Type) : Type := mkEnv {
  respond : forall X : Type, Call X -> W -> Settled X * W;
  deliver : OfferCodeChangeEvent.t -> W -> W
}.
Arguments respond {W} _ {X} _ _.
Arguments deliver {W} _ _ _.

Record Outcome (W A : Type) : Type := mkOutcome {
  result : Settled A;
  world : W;
  trace : list Event
}.
Arguments mkOutcome {W A} _ _ _.
Arguments result {W A} _.
Arguments world {W A} _.
Arguments trace {W A} _.

Definition logged {W A : Type} (e : Event) (o : Outcome W A) : Outcome W A :=
  mkOutcome (result o) (world o) (e :: trace o).

Fixpoint run {W A : Type} (env : Env W) (p : Prog A) (w : W) : Outcome W A :=
  match p with
  | Ret a => mkOutcome (inr a) w []
  | Throw e => mkOutcome (inl e) w []
  | Emit ev k => logged (Dispatched ev) (run env k (deliver env ev w))
  | Request c k =>
      let (r, w') := respond env c w in
      logged (Called c r) (run env (k r) w')
  end.

(** ** [@nexes/mongo-utils] and [lodash.flowRight] *)

(** [Object.assign(memo, {[key]: value})]: an entry with the same key is
    replaced where it stands, a new key is added last. *)
Fixpoint assign (memo : Query) (e : Entry) : Query :=
  match memo with
  | [] => [e]
  | x :: rest =>
      if String.eqb (entry_key x) (entry_key e)
      then e :: rest
      else x :: assign rest e
  end.

(** [Object.assign(memo, obj)] where [obj] is what a mapping callback
    returned: [undefined] ([None]) leaves [memo] as it is. *)
Definition assign_object (memo : Query) (obj : option (list (string * Value))) : Query :=
  match obj with
  | None => memo
  | Some fields => fold_left (fun m kv => assign m (Field (fst kv) (snd kv))) fields memo
  end.

Section MapQuery.
Variable fn : Value -> string -> option (list (string * Value)).

(** Modelled from the spec: [mapQuery] of the package [@nexes/mongo-utils],
    which is not part of this tree. It rebuilds a query object entry by
    entry: under a logical operator every sub-query is mapped in turn, and
    for a field the callback decides what is merged into the result (nothing
    when it returns [undefined]). *)
Fixpoint mapQuery_entry (e : Entry) (memo : Query) : Query :=
  match e with
  | Field key v => assign_object memo (fn v key)
  | Group op qs =>
      assign memo
        (Group op (map (fun q => fold_left (fun m e' => mapQuery_entry e' m) q []) qs))
  end.

Definition mapQuery (query : Query) : Query :=
  fold_left (fun m e => mapQuery_entry e m) query [].
End MapQuery.

Module KeyValueMapping.
Record t : Type := make {
  key_from : string;
  key_to : string;
  values : list (Scalar * Scalar)
}.
End KeyValueMapping.

Definition mapValue (values : list (Scalar * Scalar)) (v : Scalar) : Scalar :=
  match find (fun m => Scalar_eqb (fst m) v) values with
  | Some m => snd m
  | None => v
  end.

Definition mapOperand (values : list (Scalar * Scalar)) (x : Operand) : Operand :=
  match x with
  | One s => One (mapValue values s)
  | Many ss => Many (map (mapValue values) ss)
  end.

Definition mapFieldValue (values : list (Scalar * Scalar)) (value : Value) : Value :=
  match value with
  | Lit s => Lit (mapValue values s)
  | Ops ops => Ops (map (fun ox => (fst ox, mapOperand values (snd ox))) ops)
  end.

(** Modelled from the spec: [mapKeyValues] of [@nexes/mongo-utils]. A field
    named [key.from] is renamed to [key.to] and its value (or every operand of
    its comparison operators) is replaced as [values] says, a value without a
    replacement staying as it is; every other field is kept. *)
Definition mapKeyValues (mapping : KeyValueMapping.t) : Query -> Query :=
  mapQuery (fun value key =>
    if String.eqb key (KeyValueMapping.key_from mapping)
    then Some [(KeyValueMapping.key_to mapping,
                mapFieldValue (KeyValueMapping.values mapping) value)]
    else Some [(key, value)]).

(** [flowRight(f, g)] is [x => f(g(x))]. *)
Definition flowRight {A B C : Type} (f : B -> C) (g : A -> B) : A -> C :=
  fun x => f (g x).

(** ** The repository's filter transformers *)

Definition statusMapping : KeyValueMapping.t :=
  KeyValueMapping.make "status" "active"
    [(SStr "active", SBool true); (SStr "archived", SBool false)].

Definition statusTransformer : Query -> Query := mapKeyValues statusMapping.

Definition rejectNonStatusTransformer (input : Query) : Query :=
  mapQuery (fun value key =>
    if negb (String.eqb key "status")
    then None
    else Some [(key, value)]) input.

Definition mongoTransformer : Query -> Query :=
  flowRight statusTransformer rejectNonStatusTransformer.

(** ** [Promise.all] over calls of an [async] function *)

Fixpoint mapM {A B : Type} (f : A -> Prog B) (l : list A) : Prog (list B) :=
  match l with
  | [] => Ret []
  | a :: rest => b <- f a ;; bs <- mapM f rest ;; Ret (b :: bs)
  end.

(** Calling an [async] function runs its body up to the first [await]: the
    call it awaits is issued, and what remains is the pending promise. *)
Fixpoint start {A : Type} (p : Prog A) : Prog (Prog A) :=
  match p with
  | Ret a => Ret (Ret a)
  | Throw e => Ret (Throw e)
  | Emit ev k => Emit ev (start k)
  | Request c k => Request c (fun r => Ret (k r))
  end.

(** [Promise.all(list.map(f))]: every call of [f] is started, in order, before
    any of them is resumed; the results keep the order of the list and the
    first rejection (in that order) rejects the whole. *)
Definition Promise_all {A : Type} (promises : list (Prog A)) : Prog (list A) :=
  pending <- mapM start promises ;; mapM (fun p => p) pending.

(** ** OfferRepository *)

Definition TypeError_reading (what property : string) : Error :=
  TypeError ("Cannot read properties of " ++ what ++ " (reading '" ++ property ++ "')").

Section OfferRepository.

(** [Offer.create(data, null)] of the domain model, which is not part of this
    tree: it validates the properties and resolves to the [Offer], or rejects. *)
Variable Offer_create : Offer.props -> Settled Offer.t.

Definition existsByName (name : string) (options : option Options.t) : Prog bool :=
  model <- await (OfferModel_findOne (ByName name) options) ;;
  match model with
  | None => Ret false
  | Some _ => Ret true
  end.

Definition existsByCode (code : string) (options : option Options.t) : Prog bool :=
  model <- await (OfferModel_findOne (ByCode code) options) ;;
  match model with
  | None => Ret false
  | Some _ => Ret true
  end.

(** The object literal built in [mapToOffer], once [count] and the joined
    product are at hand. *)
Definition mapToOffer_props (json : Row.t) (count : Z) (product : Product.t) : Offer.props :=
  Offer.make_props
    (Row.id json)
    (Row.name json)
    (Row.code json)
    (Row.portal_title json)
    (Row.portal_description json)
    (if String.eqb (Row.discount_type json) "amount" then "fixed" else "percent")
    (Row.discount_amount json)
    (Row.interval json)
    (Row.currency json)
    (Row.duration json)
    (Row.duration_in_months json)
    count
    (Row.stripe_coupon_id json)
    (if Row.active json then "active" else "archived")
    (Tier.make (Product.id product) (Product.name product)).

Definition mapToOffer (model : option Row.t) (options : option Options.t) : Prog Offer.t :=
  match model with
  | None => Throw (TypeError_reading "null" "toJSON")
  | Some json =>
      match options with
      | None => Throw (TypeError_reading "undefined" "transacting")
      | Some o =>
          count <- await (OfferRedemptionModel_count (Row.id json) "id"
                            (Options.make (Options.transacting o) None None None None)) ;;
          match Row.product json with
          | None => Throw (TypeError_reading "undefined" "id")
          | Some product =>
              match Offer_create (mapToOffer_props json count product) with
              | inl e => Throw e
              | inr offer => Ret offer
              end
          end
      end
  end.

Definition getById (id : string) (options : option Options.t) : Prog Offer.t :=
  model <- await (OfferModel_findOne (ById id)
                    (Some (Options.set_withRelated (spread options) ["product"]))) ;;
  mapToOffer model options.

Definition getAll (options : option Options.t) : Prog (list Offer.t) :=
  models <- await (OfferModel_findAll
                     (Options.set_withRelated
                        (Options.set_mongoTransformer (spread options) mongoTransformer)
                        ["product"])) ;;
  let mapOptions :=
    Options.make (match options with
                  | Some o => Options.transacting o
                  | None => None
                  end) None None None None in
  Promise_all (map (fun model => mapToOffer (Some model) (Some mapOptions)) models).

(** The [data] object literal at the top of [save]. *)
Definition save_data (offer : Offer.t) : Data.t :=
  Data.make
    (Offer.id offer)
    (value (Offer.name offer))
    (value (Offer.code offer))
    (value (Offer.displayTitle offer))
    (value (Offer.displayDescription offer))
    (if String.eqb (value (Offer.type offer)) "fixed" then "amount" else "percent")
    (value (Offer.amount offer))
    (value (Offer.cadence offer))
    (Tier.id (Offer.tier offer))
    (Duration.type (value (Offer.duration offer)))
    (if String.eqb (Duration.type (value (Offer.duration offer))) "repeating"
     then Duration.months (value (Offer.duration offer))
     else None)
    (match Offer.currency offer with
     | Some c => Some (value c)
     | None => None
     end)
    (OfferStatus.equals (Offer.status offer) (OfferStatus.create "active"))
    None.

(** The code-change event of [save]. *)
Definition save_event (offer : Offer.t) : OfferCodeChangeEvent.t :=
  OfferCodeChangeEvent.create (Offer.id offer) (Offer.oldCode offer) (Offer.code offer).

(** The coupon parameters of [save]; reading [offer.currency.value] throws
    when the offer has no currency. *)
Definition save_coupon (offer : Offer.t) : Prog Coupon.t :=
  let name := value (Offer.name offer) in
  let duration := Duration.type (value (Offer.duration offer)) in
  let duration_in_months :=
    if String.eqb (Duration.type (value (Offer.duration offer))) "repeating"
    then Duration.months (value (Offer.duration offer))
    else None in
  if String.eqb (value (Offer.type offer)) "percent"
  then Ret (Coupon.make name duration duration_in_months
              (Some (value (Offer.amount offer))) None None)
  else
    match Offer.currency offer with
    | None => Throw (TypeError_reading "null" "value")
    | Some c =>
        Ret (Coupon.make name duration duration_in_months
               None (Some (value (Offer.amount offer))) (Some (value c)))
    end.

Definition save (offer : Offer.t) (options : option Options.t) : Prog unit :=
  let data := save_data offer in
  (if Offer.codeChanged offer || Offer.isNew offer
   then Emit (save_event offer) (Ret tt)
   else Ret tt) ;;
  if Offer.isNew offer
  then
    coupon <- save_coupon offer ;;
    couponData <- await (stripeAPIService_createCoupon coupon) ;;
    let data := Data.set_stripe_coupon_id data (CouponData.id couponData) in
    await (OfferModel_add data options)
  else
    await (OfferModel_edit data (Options.set_id (spread options) (Data.id data))).

End OfferRepository.

(** ** ServiceProvider: the file service *)

Definition uploadImage (file : File) : Prog string :=
  response <- await (images_upload file) ;;
  match UploadResponse.images response with
  | [] => Throw (TypeError_reading "undefined" "url")
  | image :: _ => Ret (Image.url image)
  end.

(** ** Reading queries *)

(** The field names of a query, at every depth. *)
Fixpoint entry_fields (e : Entry) : list string :=
  match e with
  | Field key _ => [key]
  | Group _ qs => flat_map (fun q => flat_map entry_fields q) qs
  end.

Definition query_fields (q : Query) : list string := flat_map entry_fields q.

Definition keys (q : Query) : list string := map entry_key q.

(** [query[key]]: as in an object literal, the last entry for a key wins. *)
Fixpoint lookup (key : string) (q : Query) : option Entry :=
  match q with
  | [] => None
  | e :: rest =>
      match lookup key rest with
      | Some found => Some found
      | None => if String.eqb (entry_key e) key then Some e else None
      end
  end.

(** Induction on entries, with the hypothesis for every entry of every
    sub-query of a group. *)
Section EntryInduction.
Variable P : Entry -> Prop.
Hypothesis HField : forall key v, P (Field key v).
Hypothesis HGroup : forall op qs, Forall (Forall P) qs -> P (Group op qs).

Fixpoint Entry_ind (e : Entry) : P e :=
  match e with
  | Field key v => HField key v
  | Group op qs =>
      HGroup op qs
        ((fix all_queries (l : list (list Entry)) : Forall (Forall P) l :=
            match l with
            | [] => Forall_nil _
            | q :: l' =>
                Forall_cons q
                  ((fix all_entries (q : list Entry) : Forall P q :=
                      match q with
                      | [] => Forall_nil _
                      | e' :: q' => Forall_cons e' (Entry_ind e') (all_entries q')
                      end) q)
                  (all_queries l')
            end) qs)
  end.
End EntryInduction.

(** Mapping entry [e] into any [memo] turns field names that satisfy [Pin]
    into field names that satisfy [Pout]. *)
Definition maps_fields
    (fn : Value -> string -> option (list (string * Value)))
    (Pin Pout : string -> Prop) (e : Entry) : Prop :=
  forall memo : Query,
    Forall Pin (entry_fields e) ->
    Forall Pout (query_fields memo) ->
    Forall Pout (query_fields (mapQuery_entry fn e memo)).

(** ** Reading traces *)

Definition is_createCoupon (e : Event) : bool :=
  match e with
  | Called (stripeAPIService_createCoupon _) _ => true
  | _ => false
  end.

Definition is_insert (e : Event) : bool :=
  match e with
  | Called (OfferModel_add _ _) _ => true
  | _ => false
  end.

Definition is_update (e : Event) : bool :=
  match e with
  | Called (OfferModel_edit _ _) _ => true
  | _ => false
  end.

Definition is_upload (e : Event) : bool :=
  match e with
  | Called (images_upload _) _ => true
  | _ => false
  end.

Definition is_dispatch (e : Event) : bool :=
  match e with
  | Dispatched _ => true
  | Called _ _ => false
  end.

Definition rejected (e : Event) : bool :=
  match e with
  | Called _ (inl _) => true
  | _ => false
  end.

Definition is_count (e : Event) : bool :=
  match e with
  | Called (OfferRedemptionModel_count _ _ _) _ => true
  | _ => false
  end.

(** A promise that needs nothing more from the collaborators. *)
Definition settled {A : Type} (p : Prog A) : Prop :=
  match p with
  | Ret _ | Throw _ => True
  | Emit _ _ | Request _ _ => False
  end.

(** A program that asks for a redemption count and then needs nothing more. *)
Definition awaits_count {A : Type} (p : Prog A) : Prop :=
  match p with
  | Request c k =>
      match c with
      | OfferRedemptionModel_count _ _ _ => True
      | _ => False
      end /\ forall r, settled (k r)
  | _ => False
  end.

(** A coupon request that the payment provider rejected. *)
Definition coupon_rejected (e : Event) : bool := is_createCoupon e && rejected e.

Definition occurrences (p : Event -> bool) (tr : list Event) : nat :=
  length (List.filter p tr).

(** The row data that a persistence call carries. *)
Definition written (e : Event) : option Data.t :=
  match e with
  | Called (OfferModel_add data _) _ => Some data
  | Called (OfferModel_edit data _) _ => Some data
  | _ => None
  end.

(** ** Domain invariants read by [save] *)

(** Section 3 of the specification: an offer of the fixed-amount type, the
    only type besides [percent], carries a currency. *)
Definition has_currency_unless_percent (offer : Offer.t) : Prop :=
  value (Offer.type offer) <> "percent" -> Offer.currency offer <> None.

(** Modelled from the spec: the change tracking of the [Offer] class, which is
    not part of this tree. A new offer has no previous code; an offer whose
    code changed since it was loaded remembers the code it was loaded with. *)
Definition tracks_code (offer : Offer.t) : Prop :=
  (Offer.isNew offer = true -> Offer.oldCode offer = None) /\
  (Offer.isNew offer = false -> Offer.codeChanged offer = true ->
   Offer.oldCode offer <> None).

(** What the repository expects of [Offer.create]: the offer it resolves to
    holds the values it was given, under the names [save] reads them by. The
    currency is the exception that section 3 of the specification makes: it
    is kept for an offer of the fixed type, and for any other offer it is
    kept or left out, never replaced by another one. *)
Definition carries (p : Offer.props) (offer : Offer.t) : Prop :=
  value (Offer.name offer) = Offer.p_name p /\
  value (Offer.code offer) = Offer.p_code p /\
  value (Offer.displayTitle offer) = Offer.p_display_title p /\
  value (Offer.displayDescription offer) = Offer.p_display_description p /\
  value (Offer.type offer) = Offer.p_type p /\
  value (Offer.amount offer) = Offer.p_amount p /\
  value (Offer.cadence offer) = Offer.p_cadence p /\
  Duration.type (value (Offer.duration offer)) = Offer.p_duration p /\
  (Offer.p_type p = "fixed" ->
   option_map value (Offer.currency offer) = Offer.p_currency p) /\
  (Offer.currency offer = None \/
   option_map value (Offer.currency offer) = Offer.p_currency p) /\
  value (Offer.status offer) = Offer.p_status p.

(** Modelled from the spec: [Offer.create] of the domain model, which is not
    part of this tree, in its plainest form. Every property is wrapped in its
    value object as it is, and an offer built from stored properties is
    neither new nor changed. *)
Definition Offer_create_plain (p : Offer.props) : Settled Offer.t :=
  inr (Offer.make
         (Offer.p_id p)
         (VO (Offer.p_name p))
         (VO (Offer.p_code p))
         (VO (Offer.p_display_title p))
         (VO (Offer.p_display_description p))
         (VO (Offer.p_type p))
         (VO (Offer.p_amount p))
         (VO (Offer.p_cadence p))
         (Offer.p_tier p)
         (VO (Duration.make (Offer.p_duration p) (Offer.p_duration_in_months p)))
         (option_map VO (Offer.p_currency p))
         (OfferStatus.create (Offer.p_status p))
         (Offer.p_redemptionCount p)
         (Offer.p_stripe_coupon_id p)
         false
         false
         None).

(** ** An in-memory environment

    A stand-in for the collaborators, used to run the repository on concrete
    inputs: a table of offer rows, the offer ids of the redemptions, and the
    queue of dispatched events. The payment provider and the image API are
    given as functions, so that a run can make them fail. *)
Module Memory.
Record World : Type := make {
  offers : list Row.t;
  redemptions : list string;
  queue : list OfferCodeChangeEvent.t
}.

Definition matches (q : FindQuery) (r : Row.t) : bool :=
  match q with
  | ByName name => String.eqb (Row.name r) name
  | ByCode code => String.eqb (Row.code r) code
  | ById id => String.eqb (Row.id r) id
  end.

Definition inserted (d : Data.t) : Row.t :=
  Row.make (Data.id d) (Data.name d) (Data.code d) (Data.portal_title d)
    (Data.portal_description d) (Data.discount_type d) (Data.discount_amount d)
    (Data.interval d) (Data.currency d) (Data.duration d)
    (Data.duration_in_months d) (Data.stripe_coupon_id d) (Data.active d) None.

(** An update writes the columns that [data] has; a column it does not have
    ([stripe_coupon_id] when unset) keeps its stored value. *)
Definition updated (d : Data.t) (r : Row.t) : Row.t :=
  Row.make (Row.id r) (Data.name d) (Data.code d) (Data.portal_title d)
    (Data.portal_description d) (Data.discount_type d) (Data.discount_amount d)
    (Data.interval d) (Data.currency d) (Data.duration d)
    (Data.duration_in_months d)
    (match Data.stripe_coupon_id d with
     | Some c => Some c
     | None => Row.stripe_coupon_id r
     end)
    (Data.active d) (Row.product r).

Definition respond
    (stripe : Coupon.t -> Settled CouponData.t)
    (upload : File -> Settled UploadResponse.t)
    (X : Type) (c : Call X) (w : World) : Settled X * World :=
  match c in Call T return Settled T * World with
  | OfferModel_findOne q _ => (inr (find (matches q) (offers w)), w)
  | OfferModel_findAll _ => (inr (offers w), w)
  | OfferModel_add data _ =>
      (inr tt, make (offers w ++ [inserted data]) (redemptions w) (queue w))
  | OfferModel_edit data options =>
      (inr tt,
       make (map (fun r =>
                    match Options.id options with
                    | Some i => if String.eqb (Row.id r) i then updated data r else r
                    | None => r
                    end) (offers w))
            (redemptions w) (queue w))
  | OfferRedemptionModel_count offer_id _ _ =>
      (inr (Z.of_nat (count_occ string_dec (redemptions w) offer_id)), w)
  | stripeAPIService_createCoupon coupon => (stripe coupon, w)
  | images_upload file => (upload file, w)
  end.

Definition deliver (ev : OfferCodeChangeEvent.t) (w : World) : World :=
  make (offers w) (redemptions w) (queue w ++ [ev]).

Definition env
    (stripe : Coupon.t -> Settled CouponData.t)
    (upload : File -> Settled UploadResponse.t) : Env World :=
  mkEnv World (respond stripe upload) deliver.

Definition empty : World := make [] [] [].
End Memory.

(** ** Sample inputs *)

Definition sample_offer (isNew codeChanged : bool) (oldCode : option (ValueObject string)) : Offer.t :=
  Offer.make "offer_1" (VO "Black Friday") (VO "black-friday")
    (VO "Black Friday deal") (VO "Half a year at a discount")
    (VO "fixed") (VO 500%Z) (VO "month") (Tier.make "tier_1" "Gold")
    (VO (Duration.make "repeating" (Some 6%Z))) (Some (VO "usd"))
    (OfferStatus.create "active") 0%Z None isNew codeChanged oldCode.

Definition new_offer : Offer.t := sample_offer true false None.

Definition renamed_offer : Offer.t := sample_offer false true (Some (VO "cyber-monday")).

Definition stripe_up (coupon : Coupon.t) : Settled CouponData.t :=
  inr (CouponData.make ("coupon_" ++ Coupon.name coupon)).

Definition stripe_down (coupon : Coupon.t) : Settled CouponData.t :=
  inl (Rejection "payment provider unavailable").

Definition upload_up (file : File) : Settled UploadResponse.t :=
  inr (UploadResponse.make [Image.make ("https://cdn.example/" ++ file)]).

Definition upload_nothing (file : File) : Settled UploadResponse.t :=
  inr (UploadResponse.make []).

Definition upload_down (file : File) : Settled UploadResponse.t :=
  inl (Rejection "network unreachable").

Definition sample_row (discount_type : string) : Row.t :=
  Row.make "offer_1" "Black Friday" "black-friday" "Black Friday deal"
    "Half a year at a discount" discount_type 500%Z "month" (Some "usd")
    "repeating" (Some 6%Z) (Some "coupon_Black Friday") true
    (Some (Product.make "tier_1" "Gold")).

(** The offer that the plain [Offer.create] makes of [sample_row "amount"]
    when no redemption is stored. *)
Definition loaded_offer : Offer.t :=
  Offer.make "offer_1" (VO "Black Friday") (VO "black-friday")
    (VO "Black Friday deal") (VO "Half a year at a discount")
    (VO "fixed") (VO 500%Z) (VO "month") (Tier.make "tier_1" "Gold")
    (VO (Duration.make "repeating" (Some 6%Z))) (Some (VO "usd"))
    (OfferStatus.create "active") 0%Z (Some "coupon_Black Friday") false false None.

(** The offer with another redemption count. *)
Definition with_count (offer : Offer.t) (count : Z) : Offer.t :=
  Offer.make (Offer.id offer) (Offer.name offer) (Offer.code offer)
    (Offer.displayTitle offer) (Offer.displayDescription offer)
    (Offer.type offer) (Offer.amount offer) (Offer.cadence offer) (Offer.tier offer)
    (Offer.duration offer) (Offer.currency offer) (Offer.status offer)
    count (Offer.stripeCouponId offer)
    (Offer.isNew offer) (Offer.codeChanged offer) (Offer.oldCode offer).

(** The offer with another tier in place of its own. *)
Definition with_tier (offer : Offer.t) (tier : Tier.t) : Offer.t :=
  Offer.make (Offer.id offer) (Offer.name offer) (Offer.code offer)
    (Offer.displayTitle offer) (Offer.displayDescription offer)
    (Offer.type offer) (Offer.amount offer) (Offer.cadence offer) tier
    (Offer.duration offer) (Offer.currency offer) (Offer.status offer)
    (Offer.redemptionCount offer) (Offer.stripeCouponId offer)
    (Offer.isNew offer) (Offer.codeChanged offer) (Offer.oldCode offer).

(** ** Reading the runs of the queries *)

(** What [mapToOffer] settles to for a row, once its count has settled: the
    rejection of the count, the failure to read the joined product, or what
    [Offer.create] returns. *)
Definition mapToOffer_settles
    (Offer_create : Offer.props -> Settled Offer.t)
    (json : Row.t) (count : Settled Z) : Settled Offer.t :=
  match count with
  | inl e => inl e
  | inr n =>
      match Row.product json with
      | None => inl (TypeError_reading "undefined" "id")
      | Some product => Offer_create (mapToOffer_props json n product)
      end
  end.

(** [Promise.all] over promises that have settled: the values in order, or
    the first rejection in order. *)
Fixpoint all_of {A : Type} (l : list (Settled A)) : Settled (list A) :=
  match l with
  | [] => inr []
  | inl e :: _ => inl e
  | inr a :: rest =>
      match all_of rest with
      | inl e => inl e
      | inr values => inr (a :: values)
      end
  end.

(** The count request that [mapToOffer] makes for a row within transaction
    [tx], with what it settled to. *)
Definition count_event (tx : option Transaction) (answered : Row.t * Settled Z) : Event :=
  Called (OfferRedemptionModel_count (Row.id (fst answered)) "id"
            (Options.make tx None None None None))
         (snd answered).

(** The requests that only read: [findOne], [findAll] and [count]. *)
Definition is_read (e : Event) : bool :=
  match e with
  | Called (OfferModel_findOne _ _) _ => true
  | Called (OfferModel_findAll _) _ => true
  | Called (OfferRedemptionModel_count _ _ _) _ => true
  | _ => false
  end.

(** An insert that the storage layer rejected. *)
Definition insert_rejected (e : Event) : bool := is_insert e && rejected e.

(** What the repository further expects of [Offer.create]: the offer keeps
    the id, the tier and the months of the duration it was given. *)
Definition carries_identity (p : Offer.props) (offer : Offer.t) : Prop :=
  Offer.id offer = Offer.p_id p /\
  Offer.tier offer = Offer.p_tier p /\
  Duration.type (value (Offer.duration offer)) = Offer.p_duration p /\
  Duration.months (value (Offer.duration offer)) = Offer.p_duration_in_months p.

(** ** More sample inputs *)

(** A row read without its product relation. *)
Definition sample_row_without_product : Row.t :=
  Row.make "offer_2" "Cyber Monday" "cyber-monday" "Cyber Monday deal"
    "One month at a discount" "percent" 20%Z "year" None
    "once" (Some 3%Z) (Some "coupon_Cyber Monday") false None.

(** Collaborators that reject every request. *)
Definition offline : Env unit :=
  mkEnv unit (fun X _ w => (inl (Rejection "storage offline"), w)) (fun _ w => w).

(** The in-memory environment, except that redemptions cannot be counted. *)
Definition uncounted : Env Memory.World :=
  mkEnv Memory.World
    (fun X c w =>
       match c in Call T return Settled T * Memory.World with
       | OfferRedemptionModel_count _ _ _ => (inl (Rejection "count unavailable"), w)
       | c' => Memory.respond stripe_up upload_up _ c' w
       end)
    Memory.deliver.

(** The in-memory environment, except that inserts are rejected. *)
Definition read_only_store : Env Memory.World :=
  mkEnv Memory.World
    (fun X c w =>
       match c in Call T return Settled T * Memory.World with
       | OfferModel_add _ _ => (inl (Rejection "table is read-only"), w)
       | c' => Memory.respond stripe_up upload_up _ c' w
       end)
    Memory.deliver.

(** The offer without its currency. *)
Definition without_currency (offer : Offer.t) : Offer.t :=
  Offer.make (Offer.id offer) (Offer.name offer) (Offer.code offer)
    (Offer.displayTitle offer) (Offer.displayDescription offer)
    (Offer.type offer) (Offer.amount offer) (Offer.cadence offer) (Offer.tier offer)
    (Offer.duration offer) None (Offer.status offer)
    (Offer.redemptionCount offer) (Offer.stripeCouponId offer)
    (Offer.isNew offer) (Offer.codeChanged offer) (Offer.oldCode offer).

(** Modelled from the spec: [Offer.create] of the domain model, which is not
    part of this tree, with the currency as section 3 of the specification
    has it. An offer of the fixed type must come with a currency and keeps
    it; for any other offer the currency is ignored and the offer has none.
    Every other property is wrapped in its value object as it is. *)
Definition Offer_create_by_type (p : Offer.props) : Settled Offer.t :=
  match Offer_create_plain p with
  | inl e => inl e
  | inr offer =>
      if String.eqb (Offer.p_type p) "fixed"
      then match Offer.p_currency p with
           | Some _ => inr offer
           | None => inl (Rejection "a fixed offer needs a currency")
           end
      else inr (without_currency offer)
  end.

(** A table of two rows, the first of them redeemed once. *)
Definition two_rows : Memory.World :=
  Memory.make [sample_row "amount"; sample_row "percent"] ["offer_1"] [].

(** * Properties *)

(** ** Running programs *)

Lemma run_bind :
  forall (W A B : Type) (env : Env W) (p : Prog A) (f : A -> Prog B) (w : W),
    run env (bind p f) w =
    match result (run env p w) with
    | inl e => mkOutcome (inl e) (world (run env p w)) (trace (run env p w))
    | inr a =>
        let o := run env (f a) (world (run env p w)) in
        mkOutcome (result o) (world o) (trace (run env p w) ++ trace o)
    end.
Proof.
  intros W A B env p f.
  induction p as [a | e | ev k IH | X c k IH]; intros w; simpl.
  - destruct (run env (f a) w); reflexivity.
  - reflexivity.
  - rewrite IH. unfold logged; simpl.
    destruct (result (run env k (deliver env ev w))); reflexivity.
  - destruct (respond env c w) as [r w'].
    rewrite IH. unfold logged; simpl.
    destruct (result (run env (k r) w')); reflexivity.
Qed.

Lemma run_await :
  forall (W X : Type) (env : Env W) (c : Call X) (w : W),
    run env (await c) w =
    mkOutcome (fst (respond env c w)) (snd (respond env c w))
              [Called c (fst (respond env c w))].
Proof.
  intros W X env c w. unfold await; simpl.
  destruct (respond env c w) as [[e | x] w']; reflexivity.
Qed.

(** ** [save] *)

(** The run of [save] on an existing offer: the event if the code changed,
    then the one update. *)
Lemma save_existing_run :
  forall (W : Type) (env : Env W) (w : W) (offer : Offer.t) (options : option Options.t),
    Offer.isNew offer = false ->
    let w1 := if Offer.codeChanged offer then deliver env (save_event offer) w else w in
    let edit := OfferModel_edit (save_data offer)
                  (Options.set_id (spread options) (Offer.id offer)) in
    run env (save offer options) w =
    mkOutcome (fst (respond env edit w1)) (snd (respond env edit w1))
      ((if Offer.codeChanged offer then [Dispatched (save_event offer)] else [])
       ++ [Called edit (fst (respond env edit w1))]).
Proof.
  intros W env w offer options Hnew. unfold save. rewrite Hnew.
  rewrite orb_false_r.
  destruct (Offer.codeChanged offer); simpl;
    match goal with
    | |- context [respond env ?c ?w] => destruct (respond env c w) as [[e | u] w']
    end; reflexivity.
Qed.

(** With the currency its type needs, the coupon parameters are built. *)
Lemma save_coupon_built :
  forall offer : Offer.t,
    has_currency_unless_percent offer ->
    exists coupon : Coupon.t, save_coupon offer = Ret coupon.
Proof.
  intros offer Hcur. unfold save_coupon.
  destruct (String.eqb (value (Offer.type offer)) "percent") eqn:Htype.
  - eexists; reflexivity.
  - destruct (Offer.currency offer) as [c |] eqn:Hc.
    + eexists; reflexivity.
    + exfalso. apply Hcur; [| exact Hc].
      intros H. rewrite H in Htype. discriminate.
Qed.

(** The run of [save] on a new offer whose coupon parameters are [coupon]:
    the event, the coupon request and, if that resolved, the insert. *)
Lemma save_new_run :
  forall (W : Type) (env : Env W) (w : W) (offer : Offer.t) (options : option Options.t)
         (coupon : Coupon.t),
    Offer.isNew offer = true ->
    save_coupon offer = Ret coupon ->
    let w1 := deliver env (save_event offer) w in
    let create := stripeAPIService_createCoupon coupon in
    run env (save offer options) w =
    match fst (respond env create w1) with
    | inl e =>
        mkOutcome (inl e) (snd (respond env create w1))
          [Dispatched (save_event offer); Called create (inl e)]
    | inr couponData =>
        let add := OfferModel_add
                     (Data.set_stripe_coupon_id (save_data offer) (CouponData.id couponData))
                     options in
        let w2 := snd (respond env create w1) in
        mkOutcome (fst (respond env add w2)) (snd (respond env add w2))
          [Dispatched (save_event offer); Called create (inr couponData);
           Called add (fst (respond env add w2))]
    end.
Proof.
  intros W env w offer options coupon Hnew Hcoupon. unfold save.
  rewrite Hnew, Hcoupon, orb_true_r. simpl.
  destruct (respond env (stripeAPIService_createCoupon coupon)
              (deliver env (save_event offer) w)) as [[e | cd] w1]; simpl;
    [reflexivity |].
  match goal with
  | |- context [respond env ?c ?w] => destruct (respond env c w) as [[e | u] w2]
  end; reflexivity.
Qed.

(** A new offer without the currency its type needs: [save] dispatches the
    event and throws before anything is requested. *)
Lemma save_new_without_currency :
  forall (W : Type) (env : Env W) (w : W) (offer : Offer.t) (options : option Options.t),
    Offer.isNew offer = true ->
    String.eqb (value (Offer.type offer)) "percent" = false ->
    Offer.currency offer = None ->
    run env (save offer options) w =
    mkOutcome (inl (TypeError_reading "null" "value"))
      (deliver env (save_event offer) w) [Dispatched (save_event offer)].
Proof.
  intros W env w offer options Hnew Htype Hcur. unfold save, save_coupon.
  rewrite Hnew, Htype, Hcur, orb_true_r. reflexivity.
Qed.

Lemma save_coupon_cases :
  forall offer : Offer.t,
    (exists coupon : Coupon.t, save_coupon offer = Ret coupon) \/
    (save_coupon offer = Throw (TypeError_reading "null" "value") /\
     String.eqb (value (Offer.type offer)) "percent" = false /\
     Offer.currency offer = None).
Proof.
  intros offer. unfold save_coupon.
  destruct (String.eqb (value (Offer.type offer)) "percent").
  - left; eexists; reflexivity.
  - destruct (Offer.currency offer) as [c |].
    + left; eexists; reflexivity.
    + right; repeat split.
Qed.

(** Whatever the offer, the trace of [save] is the event (when there is one)
    followed by requests only. *)
Lemma save_trace_shape :
  forall (W : Type) (env : Env W) (w : W) (offer : Offer.t) (options : option Options.t),
    exists rest : list Event,
      trace (run env (save offer options) w) =
        ((if Offer.codeChanged offer || Offer.isNew offer
          then [Dispatched (save_event offer)]
          else []) ++ rest)%list /\
      occurrences is_dispatch rest = 0.
Proof.
  intros W env w offer options.
  destruct (Offer.isNew offer) eqn:Hnew.
  - rewrite orb_true_r.
    destruct (save_coupon_cases offer) as [[coupon Hcoupon] | (_ & Htype & Hcur)].
    + rewrite (save_new_run W env w offer options coupon Hnew Hcoupon); simpl.
      destruct (fst (respond env (stripeAPIService_createCoupon coupon)
                       (deliver env (save_event offer) w))) as [e | cd];
        simpl; eexists; split; reflexivity.
    + rewrite (save_new_without_currency W env w offer options Hnew Htype Hcur); simpl.
      exists []; split; reflexivity.
  - rewrite orb_false_r.
    rewrite (save_existing_run W env w offer options Hnew); simpl.
    destruct (Offer.codeChanged offer); simpl; eexists; split; reflexivity.
Qed.

Lemma no_dispatch_in :
  forall rest : list Event,
    occurrences is_dispatch rest = 0 ->
    forall ev, ~ In (Dispatched ev) rest.
Proof.
  unfold occurrences.
  induction rest as [| x rest IH]; simpl; intros Hrest ev.
  - tauto.
  - intros [Hx | Hin].
    + subst x. simpl in Hrest. discriminate.
    + destruct (is_dispatch x); [discriminate | exact (IH Hrest ev Hin)].
Qed.

(** C1: for a new offer that carries the currency its type needs, when the
    coupon request is not rejected, [save] dispatches the event, then requests
    exactly one coupon from the payment provider, then issues exactly one
    insert, in that order; the inserted data is the offer's data with
    [stripe_coupon_id] set to the id the provider returned. *)
Theorem save_new_coupon_then_insert :
  forall (W : Type) (env : Env W) (w : W) (offer : Offer.t) (options : option Options.t),
    Offer.isNew offer = true ->
    has_currency_unless_percent offer ->
    existsb coupon_rejected (trace (run env (save offer options) w)) = false ->
    exists (coupon : Coupon.t) (couponData : CouponData.t) (data : Data.t)
           (inserted : Settled unit),
      save_coupon offer = Ret coupon /\
      trace (run env (save offer options) w) =
        [Dispatched (save_event offer);
         Called (stripeAPIService_createCoupon coupon) (inr couponData);
         Called (OfferModel_add data options) inserted] /\
      data = Data.set_stripe_coupon_id (save_data offer) (CouponData.id couponData) /\
      Data.stripe_coupon_id data = Some (CouponData.id couponData) /\
      occurrences is_createCoupon (trace (run env (save offer options) w)) = 1 /\
      occurrences is_insert (trace (run env (save offer options) w)) = 1 /\
      occurrences is_update (trace (run env (save offer options) w)) = 0 /\
      result (run env (save offer options) w) = inserted.
Proof.
  intros W env w offer options Hnew Hcur.
  destruct (save_coupon_built offer Hcur) as [coupon Hcoupon].
  rewrite (save_new_run W env w offer options coupon Hnew Hcoupon); simpl.
  destruct (fst (respond env (stripeAPIService_createCoupon coupon)
                   (deliver env (save_event offer) w))) as [e | cd]; simpl.
  - discriminate.
  - intros _. exists coupon, cd. eexists. eexists.
    split; [exact Hcoupon |]. repeat split; reflexivity.
Qed.

(** C6: for a new offer, when the coupon request is rejected, [save] rejects
    with that very rejection and the trace ends with the rejected request: no
    insert and no update is issued. *)
Theorem save_new_coupon_failure_prevents_insert :
  forall (W : Type) (env : Env W) (w : W) (offer : Offer.t) (options : option Options.t),
    Offer.isNew offer = true ->
    existsb coupon_rejected (trace (run env (save offer options) w)) = true ->
    exists (coupon : Coupon.t) (e : Error),
      trace (run env (save offer options) w) =
        [Dispatched (save_event offer);
         Called (stripeAPIService_createCoupon coupon) (inl e)] /\
      result (run env (save offer options) w) = inl e /\
      occurrences is_insert (trace (run env (save offer options) w)) = 0 /\
      occurrences is_update (trace (run env (save offer options) w)) = 0.
Proof.
  intros W env w offer options Hnew.
  destruct (save_coupon_cases offer) as [[coupon Hcoupon] | (_ & Htype & Hcur)].
  - rewrite (save_new_run W env w offer options coupon Hnew Hcoupon); simpl.
    destruct (fst (respond env (stripeAPIService_createCoupon coupon)
                     (deliver env (save_event offer) w))) as [e | cd]; simpl.
    + intros _. exists coupon, e. repeat split; reflexivity.
    + discriminate.
  - rewrite (save_new_without_currency W env w offer options Hnew Htype Hcur); simpl.
    discriminate.
Qed.

(** C2: for an existing offer, [save] requests nothing from the payment
    provider and issues exactly one update and no insert; the data of the
    update has no [stripe_coupon_id], so the stored id is never written again. *)
Theorem save_existing_updates_only :
  forall (W : Type) (env : Env W) (w : W) (offer : Offer.t) (options : option Options.t),
    Offer.isNew offer = false ->
    exists updated : Settled unit,
      trace (run env (save offer options) w) =
        ((if Offer.codeChanged offer then [Dispatched (save_event offer)] else []) ++
         [Called (OfferModel_edit (save_data offer)
                    (Options.set_id (spread options) (Offer.id offer))) updated])%list /\
      result (run env (save offer options) w) = updated /\
      occurrences is_createCoupon (trace (run env (save offer options) w)) = 0 /\
      occurrences is_insert (trace (run env (save offer options) w)) = 0 /\
      occurrences is_update (trace (run env (save offer options) w)) = 1 /\
      (forall (e : Event) (data : Data.t),
          In e (trace (run env (save offer options) w)) ->
          written e = Some data ->
          Data.stripe_coupon_id data = None).
Proof.
  intros W env w offer options Hnew.
  rewrite (save_existing_run W env w offer options Hnew); simpl.
  eexists. split; [reflexivity |]. split; [reflexivity |].
  destruct (Offer.codeChanged offer); simpl; repeat split; try reflexivity.
  - intros e data [He | [He | []]] Hw; subst e; simpl in Hw; [discriminate |].
    injection Hw as <-. reflexivity.
  - intros e data [He | []] Hw; subst e; simpl in Hw.
    injection Hw as <-. reflexivity.
Qed.

(** C3: [save] dispatches a code-change event exactly when the offer is new
    or its code changed; the event is the first thing in the trace, before any
    request to the payment provider or to the models, and it is the only one;
    it carries the offer's id, old code and code, so that for an offer whose
    change tracking is sound the previous code is absent exactly when the
    offer is new. *)
Theorem save_dispatches_code_change :
  forall (W : Type) (env : Env W) (w : W) (offer : Offer.t) (options : option Options.t),
    tracks_code offer ->
    ((exists ev, In (Dispatched ev) (trace (run env (save offer options) w))) <->
     (Offer.isNew offer = true \/ Offer.codeChanged offer = true)) /\
    (forall ev,
        In (Dispatched ev) (trace (run env (save offer options) w)) ->
        (exists rest,
            trace (run env (save offer options) w) = Dispatched ev :: rest /\
            occurrences is_dispatch rest = 0) /\
        OfferCodeChangeEvent.offerId ev = Offer.id offer /\
        OfferCodeChangeEvent.currentCode ev = Offer.code offer /\
        OfferCodeChangeEvent.previousCode ev = Offer.oldCode offer /\
        (OfferCodeChangeEvent.previousCode ev = None <-> Offer.isNew offer = true)).
Proof.
  intros W env w offer options [Hfresh Hchanged].
  destruct (save_trace_shape W env w offer options) as (rest & Htr & Hrest).
  rewrite Htr. pose proof (no_dispatch_in rest Hrest) as Hnone.
  destruct (Offer.codeChanged offer || Offer.isNew offer) eqn:Hfire; simpl.
  - apply orb_true_iff in Hfire. split.
    + split; [intros _; tauto |].
      intros _. exists (save_event offer). left; reflexivity.
    + intros ev [Hev | Hin]; [| destruct (Hnone ev Hin)].
      injection Hev as <-.
      split; [exists rest; split; [reflexivity | exact Hrest] |].
      repeat split; simpl.
      * intros Hold. destruct (Offer.isNew offer) eqn:Hnew; [reflexivity |].
        destruct Hfire as [Hcc | Hcontra]; [| discriminate].
        destruct (Hchanged eq_refl Hcc Hold).
      * exact Hfresh.
  - apply orb_false_iff in Hfire. destruct Hfire as [Hcc Hnew]. split.
    + split; [intros [ev Hin]; destruct (Hnone ev Hin) |].
      intros [H | H]; congruence.
    + intros ev Hin. destruct (Hnone ev Hin).
Qed.

(** C1 on the in-memory environment, for [new_offer] with the provider up. *)
Lemma save_new_coupon_then_insert_witness :
  Offer.isNew new_offer = true /\
  has_currency_unless_percent new_offer /\
  existsb coupon_rejected
    (trace (run (Memory.env stripe_up upload_up) (save new_offer None) Memory.empty)) = false /\
  exists (coupon : Coupon.t) (couponData : CouponData.t) (data : Data.t)
         (inserted : Settled unit),
    save_coupon new_offer = Ret coupon /\
    trace (run (Memory.env stripe_up upload_up) (save new_offer None) Memory.empty) =
      [Dispatched (save_event new_offer);
       Called (stripeAPIService_createCoupon coupon) (inr couponData);
       Called (OfferModel_add data None) inserted] /\
    data = Data.set_stripe_coupon_id (save_data new_offer) (CouponData.id couponData) /\
    Data.stripe_coupon_id data = Some (CouponData.id couponData) /\
    occurrences is_createCoupon
      (trace (run (Memory.env stripe_up upload_up) (save new_offer None) Memory.empty)) = 1 /\
    occurrences is_insert
      (trace (run (Memory.env stripe_up upload_up) (save new_offer None) Memory.empty)) = 1 /\
    occurrences is_update
      (trace (run (Memory.env stripe_up upload_up) (save new_offer None) Memory.empty)) = 0 /\
    result (run (Memory.env stripe_up upload_up) (save new_offer None) Memory.empty) = inserted.
Proof.
  assert (Hnew : Offer.isNew new_offer = true) by reflexivity.
  assert (Hcur : has_currency_unless_percent new_offer) by (intros _; discriminate).
  assert (Hok : existsb coupon_rejected
                  (trace (run (Memory.env stripe_up upload_up) (save new_offer None)
                            Memory.empty)) = false) by reflexivity.
  split; [exact Hnew |]. split; [exact Hcur |]. split; [exact Hok |].
  exact (save_new_coupon_then_insert Memory.World (Memory.env stripe_up upload_up)
           Memory.empty new_offer None Hnew Hcur Hok).
Defined.

(** C6 on the in-memory environment, for [new_offer] with the provider down. *)
Lemma save_new_coupon_failure_prevents_insert_witness :
  Offer.isNew new_offer = true /\
  existsb coupon_rejected
    (trace (run (Memory.env stripe_down upload_up) (save new_offer None) Memory.empty)) = true /\
  exists (coupon : Coupon.t) (e : Error),
    trace (run (Memory.env stripe_down upload_up) (save new_offer None) Memory.empty) =
      [Dispatched (save_event new_offer);
       Called (stripeAPIService_createCoupon coupon) (inl e)] /\
    result (run (Memory.env stripe_down upload_up) (save new_offer None) Memory.empty) = inl e /\
    occurrences is_insert
      (trace (run (Memory.env stripe_down upload_up) (save new_offer None) Memory.empty)) = 0 /\
    occurrences is_update
      (trace (run (Memory.env stripe_down upload_up) (save new_offer None) Memory.empty)) = 0.
Proof.
  assert (Hnew : Offer.isNew new_offer = true) by reflexivity.
  assert (Hko : existsb coupon_rejected
                  (trace (run (Memory.env stripe_down upload_up) (save new_offer None)
                            Memory.empty)) = true) by reflexivity.
  split; [exact Hnew |]. split; [exact Hko |].
  exact (save_new_coupon_failure_prevents_insert Memory.World
           (Memory.env stripe_down upload_up) Memory.empty new_offer None Hnew Hko).
Defined.

(** C2 on the in-memory environment, for [renamed_offer]. *)
Lemma save_existing_updates_only_witness :
  Offer.isNew renamed_offer = false /\
  exists updated : Settled unit,
    trace (run (Memory.env stripe_up upload_up) (save renamed_offer None) Memory.empty) =
      ((if Offer.codeChanged renamed_offer
        then [Dispatched (save_event renamed_offer)]
        else []) ++
       [Called (OfferModel_edit (save_data renamed_offer)
                  (Options.set_id (spread None) (Offer.id renamed_offer))) updated])%list /\
    result (run (Memory.env stripe_up upload_up) (save renamed_offer None) Memory.empty) = updated /\
    occurrences is_createCoupon
      (trace (run (Memory.env stripe_up upload_up) (save renamed_offer None) Memory.empty)) = 0 /\
    occurrences is_insert
      (trace (run (Memory.env stripe_up upload_up) (save renamed_offer None) Memory.empty)) = 0 /\
    occurrences is_update
      (trace (run (Memory.env stripe_up upload_up) (save renamed_offer None) Memory.empty)) = 1 /\
    (forall (e : Event) (data : Data.t),
        In e (trace (run (Memory.env stripe_up upload_up) (save renamed_offer None) Memory.empty)) ->
        written e = Some data ->
        Data.stripe_coupon_id data = None).
Proof.
  assert (Hold : Offer.isNew renamed_offer = false) by reflexivity.
  split; [exact Hold |].
  exact (save_existing_updates_only Memory.World (Memory.env stripe_up upload_up)
           Memory.empty renamed_offer None Hold).
Defined.

(** C3 on the in-memory environment, for [renamed_offer], whose previous code
    is known. *)
Lemma save_dispatches_code_change_witness :
  tracks_code renamed_offer /\
  ((exists ev,
       In (Dispatched ev)
          (trace (run (Memory.env stripe_up upload_up) (save renamed_offer None) Memory.empty))) <->
   (Offer.isNew renamed_offer = true \/ Offer.codeChanged renamed_offer = true)) /\
  (forall ev,
      In (Dispatched ev)
         (trace (run (Memory.env stripe_up upload_up) (save renamed_offer None) Memory.empty)) ->
      (exists rest,
          trace (run (Memory.env stripe_up upload_up) (save renamed_offer None) Memory.empty) =
            Dispatched ev :: rest /\
          occurrences is_dispatch rest = 0) /\
      OfferCodeChangeEvent.offerId ev = Offer.id renamed_offer /\
      OfferCodeChangeEvent.currentCode ev = Offer.code renamed_offer /\
      OfferCodeChangeEvent.previousCode ev = Offer.oldCode renamed_offer /\
      (OfferCodeChangeEvent.previousCode ev = None <-> Offer.isNew renamed_offer = true)).
Proof.
  assert (Htracks : tracks_code renamed_offer).
  { split; [discriminate |]. intros _ _; discriminate. }
  split; [exact Htracks |].
  exact (save_dispatches_code_change Memory.World (Memory.env stripe_up upload_up)
           Memory.empty renamed_offer None Htracks).
Defined.

(** C7 as stated fails: the data that [save] writes changes with the tier,
    because the tier's id is written as [product_id]; the update of an
    existing offer carries it. *)
Lemma save_writes_the_tier_id :
  (exists (e : Event) (data : Data.t),
      In e (trace (run (Memory.env stripe_up upload_up) (save renamed_offer None)
                     (Memory.make [sample_row "amount"] [] []))) /\
      is_update e = true /\
      written e = Some data /\
      Data.product_id data = Tier.id (Offer.tier renamed_offer)) /\
  Data.product_id (save_data new_offer) = "tier_1" /\
  Data.product_id (save_data (with_tier new_offer (Tier.make "tier_2" "Gold"))) = "tier_2" /\
  save_data (with_tier new_offer (Tier.make "tier_2" "Gold")) <> save_data new_offer.
Proof.
  split.
  - eexists. eexists. split; [right; left; reflexivity |]. repeat split.
  - repeat split. discriminate.
Qed.

(** Whatever [save] writes carries the tier's id as [product_id]. *)
Lemma save_written_product_id :
  forall (W : Type) (env : Env W) (w : W) (offer : Offer.t) (options : option Options.t)
         (e : Event) (data : Data.t),
    In e (trace (run env (save offer options) w)) ->
    written e = Some data ->
    Data.product_id data = Tier.id (Offer.tier offer).
Proof.
  intros W env w offer options e data.
  destruct (Offer.isNew offer) eqn:Hnew.
  - destruct (save_coupon_cases offer) as [[coupon Hcoupon] | (_ & Htype & Hcur)].
    + rewrite (save_new_run W env w offer options coupon Hnew Hcoupon); simpl.
      destruct (fst (respond env (stripeAPIService_createCoupon coupon)
                       (deliver env (save_event offer) w))) as [err | cd]; simpl.
      * intros [He | [He | []]] Hw; subst e; discriminate.
      * intros [He | [He | [He | []]]] Hw; subst e; simpl in Hw; try discriminate.
        injection Hw as <-. reflexivity.
    + rewrite (save_new_without_currency W env w offer options Hnew Htype Hcur); simpl.
      intros [He | []] Hw; subst e; discriminate.
  - rewrite (save_existing_run W env w offer options Hnew); simpl.
    destruct (Offer.codeChanged offer); simpl.
    + intros [He | [He | []]] Hw; subst e; simpl in Hw; try discriminate.
      injection Hw as <-. reflexivity.
    + intros [He | []] Hw; subst e; simpl in Hw.
      injection Hw as <-. reflexivity.
Qed.

(** C7, amended: of the tier, [save] writes the id and nothing else. Every
    insert or update that [save] issues carries the tier's id as
    [product_id], and the tier's name has no influence on what [save] does:
    the data and the program are the same whatever the name. *)
Theorem save_writes_tier_id_only :
  forall (W : Type) (env : Env W) (w : W) (offer : Offer.t) (options : option Options.t)
         (name : string),
    (forall (e : Event) (data : Data.t),
        In e (trace (run env (save offer options) w)) ->
        written e = Some data ->
        Data.product_id data = Tier.id (Offer.tier offer)) /\
    save_data (with_tier offer (Tier.make (Tier.id (Offer.tier offer)) name)) =
      save_data offer /\
    save (with_tier offer (Tier.make (Tier.id (Offer.tier offer)) name)) options =
      save offer options.
Proof.
  intros W env w offer options name. split.
  - apply save_written_product_id.
  - destruct offer; split; reflexivity.
Qed.

(** ** [existsByName] and [existsByCode] *)

(** C8: each of the two checks issues the one [findOne] read and nothing
    else, leaving the world as the read left it; it resolves to [false] when
    the read finds no row and to [true] when it finds one, and a rejected read
    is passed on. *)
Theorem existsBy_resolves_to_boolean :
  forall (W : Type) (env : Env W) (w : W) (key : string) (options : option Options.t),
    (let read := OfferModel_findOne (ByName key) options in
     let out := run env (existsByName key options) w in
     trace out = [Called read (fst (respond env read w))] /\
     world out = snd (respond env read w) /\
     (fst (respond env read w) = inr None -> result out = inr false) /\
     (forall row, fst (respond env read w) = inr (Some row) -> result out = inr true) /\
     (forall e, fst (respond env read w) = inl e -> result out = inl e)) /\
    (let read := OfferModel_findOne (ByCode key) options in
     let out := run env (existsByCode key options) w in
     trace out = [Called read (fst (respond env read w))] /\
     world out = snd (respond env read w) /\
     (fst (respond env read w) = inr None -> result out = inr false) /\
     (forall row, fst (respond env read w) = inr (Some row) -> result out = inr true) /\
     (forall e, fst (respond env read w) = inl e -> result out = inl e)).
Proof.
  intros W env w key options. unfold existsByName, existsByCode; simpl.
  split;
    match goal with
    | |- context [respond env ?c w] => destruct (respond env c w) as [[e | [row |]] w']
    end; simpl; repeat split; intros; congruence.
Qed.

(** ** [uploadImage] *)

(** C9: [uploadImage] issues exactly one upload request and nothing else;
    when the request resolves with a first image it resolves to the url of
    that image, and when the request is rejected it rejects with the same
    error. *)
Theorem uploadImage_first_url :
  forall (W : Type) (env : Env W) (w : W) (file : File),
    let answer := fst (respond env (images_upload file) w) in
    let out := run env (uploadImage file) w in
    trace out = [Called (images_upload file) answer] /\
    occurrences is_upload (trace out) = 1 /\
    (forall image rest,
        answer = inr (UploadResponse.make (image :: rest)) ->
        result out = inr (Image.url image)) /\
    (forall e, answer = inl e -> result out = inl e).
Proof.
  intros W env w file. unfold uploadImage; simpl.
  destruct (respond env (images_upload file) w) as [[e | [[| image rest]]] w'];
    simpl; repeat split; intros; congruence.
Qed.

(** C10: when the upload resolves with an empty list of images,
    [uploadImage] throws on reading [url] of the missing first element; it
    resolves to a url only if the response had a first image, whose url it
    is. *)
Theorem uploadImage_needs_an_image :
  forall (W : Type) (env : Env W) (w : W) (file : File),
    let answer := fst (respond env (images_upload file) w) in
    let out := run env (uploadImage file) w in
    (answer = inr (UploadResponse.make []) ->
     result out = inl (TypeError_reading "undefined" "url")) /\
    (forall url,
        result out = inr url ->
        exists image rest,
          answer = inr (UploadResponse.make (image :: rest)) /\ url = Image.url image).
Proof.
  intros W env w file. unfold uploadImage; simpl.
  destruct (respond env (images_upload file) w) as [[e | [[| image rest]]] w'];
    simpl; split; intros; try congruence.
  exists image, rest. split; congruence.
Qed.

(** C8 on the in-memory environment: a stored name is found, and no code is
    found in the empty table. *)
Lemma existsBy_resolves_to_boolean_witness :
  result (run (Memory.env stripe_up upload_up) (existsByName "Black Friday" None)
            (Memory.make [sample_row "amount"] [] [])) = inr true /\
  result (run (Memory.env stripe_up upload_up) (existsByCode "black-friday" None)
            Memory.empty) = inr false.
Proof.
  split.
  - exact (proj1 (proj2 (proj2 (proj2 (proj1
             (existsBy_resolves_to_boolean Memory.World (Memory.env stripe_up upload_up)
                (Memory.make [sample_row "amount"] [] []) "Black Friday" None)))))
             (sample_row "amount") eq_refl).
  - exact (proj1 (proj2 (proj2 (proj2
             (existsBy_resolves_to_boolean Memory.World (Memory.env stripe_up upload_up)
                Memory.empty "black-friday" None)))) eq_refl).
Defined.

(** C9 on the in-memory environment, with the image API up and down. *)
Lemma uploadImage_first_url_witness :
  result (run (Memory.env stripe_up upload_up) (uploadImage "logo.png") Memory.empty) =
    inr "https://cdn.example/logo.png" /\
  result (run (Memory.env stripe_up upload_down) (uploadImage "logo.png") Memory.empty) =
    inl (Rejection "network unreachable").
Proof.
  split.
  - exact (proj1 (proj2 (proj2
             (uploadImage_first_url Memory.World (Memory.env stripe_up upload_up)
                Memory.empty "logo.png")))
             (Image.make "https://cdn.example/logo.png") [] eq_refl).
  - exact (proj2 (proj2 (proj2
             (uploadImage_first_url Memory.World (Memory.env stripe_up upload_down)
                Memory.empty "logo.png")))
             (Rejection "network unreachable") eq_refl).
Defined.

(** C10 on the in-memory environment, with an image API that resolves
    without images. *)
Lemma uploadImage_needs_an_image_witness :
  result (run (Memory.env stripe_up upload_nothing) (uploadImage "logo.png") Memory.empty) =
    inl (TypeError_reading "undefined" "url").
Proof.
  exact (proj1 (uploadImage_needs_an_image Memory.World (Memory.env stripe_up upload_nothing)
                  Memory.empty "logo.png") eq_refl).
Defined.

(** ** Row to offer and back *)

Lemma save_data_discount_type :
  forall offer : Offer.t,
    Data.discount_type (save_data offer) = "amount" \/
    Data.discount_type (save_data offer) = "percent".
Proof.
  intros offer. unfold save_data; simpl.
  destruct (String.eqb (value (Offer.type offer)) "fixed"); [left | right]; reflexivity.
Qed.

(** C4 as stated fails, in two ways. A row whose [discount_type] is neither
    [amount] nor [percent] is mapped to a [percent] offer, and no offer at all
    is written back with that [discount_type]. And with an [Offer.create]
    that ignores the currency of an offer that is not of the fixed type, as
    section 3 of the specification has it, a [percent] row that stores a
    currency comes back without it. *)
Lemma row_is_not_always_reproduced :
  (Row.discount_type (sample_row "trial") = "trial" /\
   (exists offer,
       result (run (Memory.env stripe_up upload_up)
                 (mapToOffer Offer_create_plain (Some (sample_row "trial"))
                    (Some Options.empty))
                 Memory.empty) = inr offer /\
       value (Offer.type offer) = "percent" /\
       Data.discount_type (save_data offer) = "percent") /\
   (forall offer,
       Data.discount_type (save_data offer) <> Row.discount_type (sample_row "trial"))) /\
  (Row.discount_type (sample_row "percent") = "percent" /\
   Row.currency (sample_row "percent") = Some "usd" /\
   exists offer,
     result (run (Memory.env stripe_up upload_up)
               (mapToOffer Offer_create_by_type (Some (sample_row "percent"))
                  (Some Options.empty))
               Memory.empty) = inr offer /\
     Offer.currency offer = None /\
     Data.currency (save_data offer) = None /\
     Data.currency (save_data offer) <> Row.currency (sample_row "percent")).
Proof.
  split.
  - split; [reflexivity |]. split.
    + eexists. repeat split.
    + intros offer. destruct (save_data_discount_type offer) as [H | H];
        rewrite H; discriminate.
  - split; [reflexivity |]. split; [reflexivity |].
    eexists. split; [reflexivity |]. split; [reflexivity |]. split; [reflexivity |].
    discriminate.
Qed.

Section RoundTrip.

Variable Offer_create : Offer.props -> Settled Offer.t.

Hypothesis Offer_create_carries :
  forall (p : Offer.props) (offer : Offer.t),
    Offer_create p = inr offer -> carries p offer.

(** When [mapToOffer] resolves, the offer is what [Offer.create] made of the
    row's values, a count and the joined product. *)
Lemma mapToOffer_resolved :
  forall (W : Type) (env : Env W) (w : W) (json : Row.t) (options : option Options.t)
         (offer : Offer.t),
    result (run env (mapToOffer Offer_create (Some json) options) w) = inr offer ->
    exists (count : Z) (product : Product.t),
      Row.product json = Some product /\
      Offer_create (mapToOffer_props json count product) = inr offer.
Proof.
  intros W env w json options offer. unfold mapToOffer.
  destruct options as [o |]; simpl; [| discriminate].
  match goal with
  | |- context [respond env ?c w] => destruct (respond env c w) as [[e | count] w']
  end; simpl; [discriminate |].
  destruct (Row.product json) as [product |]; simpl; [| discriminate].
  destruct (Offer_create (mapToOffer_props json count product)) as [e | offer'] eqn:Hcreate;
    simpl; [discriminate |].
  intros H. injection H as <-. exists count, product. split; [reflexivity | exact Hcreate].
Qed.

(** C4, amended: for an [Offer.create] that keeps the values it is given,
    and that keeps the currency of a fixed offer but may leave out the
    currency of any other offer, and for a row whose [discount_type] is
    [amount] or [percent]: the offer that [mapToOffer] resolves to gives back,
    in the data [save] builds, the row's name, code, portal title and
    description, discount type and amount, interval, duration and active
    flag. The currency comes back when the [discount_type] is [amount] or the
    row has no currency; otherwise it comes back or [null] is written in its
    place. The fragment
    [{discount_type: 'amount', discount_amount: 500, currency: 'usd'}] becomes
    [{type: 'fixed', amount: 500, currency: 'usd'}] and the same fragment
    again. *)
Theorem row_offer_row_round_trip :
  forall (W : Type) (env : Env W) (w : W) (json : Row.t) (options : option Options.t)
         (offer : Offer.t),
    result (run env (mapToOffer Offer_create (Some json) options) w) = inr offer ->
    Row.discount_type json = "amount" \/ Row.discount_type json = "percent" ->
    (Data.name (save_data offer) = Row.name json /\
     Data.code (save_data offer) = Row.code json /\
     Data.portal_title (save_data offer) = Row.portal_title json /\
     Data.portal_description (save_data offer) = Row.portal_description json /\
     Data.discount_type (save_data offer) = Row.discount_type json /\
     Data.discount_amount (save_data offer) = Row.discount_amount json /\
     Data.interval (save_data offer) = Row.interval json /\
     Data.duration (save_data offer) = Row.duration json /\
     Data.active (save_data offer) = Row.active json) /\
    (Row.discount_type json = "amount" \/ Row.currency json = None ->
     Data.currency (save_data offer) = Row.currency json) /\
    (Data.currency (save_data offer) = Row.currency json \/
     Data.currency (save_data offer) = None) /\
    (Row.discount_type json = "amount" ->
     Row.discount_amount json = 500%Z ->
     Row.currency json = Some "usd" ->
     value (Offer.type offer) = "fixed" /\
     value (Offer.amount offer) = 500%Z /\
     option_map value (Offer.currency offer) = Some "usd" /\
     Data.discount_type (save_data offer) = "amount" /\
     Data.discount_amount (save_data offer) = 500%Z /\
     Data.currency (save_data offer) = Some "usd").
Proof.
  intros W env w json options offer Hrun Htype.
  destruct (mapToOffer_resolved W env w json options offer Hrun)
    as (count & product & _ & Hcreate).
  destruct (Offer_create_carries _ _ Hcreate)
    as (Hname & Hcode & Htitle & Hdesc & Hty & Hamount & Hcadence & Hdur
        & Hfixed & Hkept & Hstatus).
  simpl in Hname, Hcode, Htitle, Hdesc, Hty, Hamount, Hcadence, Hdur, Hfixed, Hkept,
    Hstatus.
  assert (Hback : Data.discount_type (save_data offer) = Row.discount_type json).
  { unfold save_data; simpl. rewrite Hty.
    destruct Htype as [H | H]; rewrite H; reflexivity. }
  assert (Hwritten : Data.currency (save_data offer) =
                     option_map value (Offer.currency offer)).
  { unfold save_data; simpl. destruct (Offer.currency offer); reflexivity. }
  assert (Hamount_row : Row.discount_type json = "amount" ->
                        Data.currency (save_data offer) = Row.currency json).
  { intros Hamt. rewrite Hwritten. apply Hfixed. rewrite Hamt. reflexivity. }
  assert (Hactive : Data.active (save_data offer) = Row.active json).
  { unfold save_data, OfferStatus.equals; simpl. rewrite Hstatus.
    destruct (Row.active json); reflexivity. }
  split; [repeat split; assumption |].
  split; [| split].
  - intros [Hamt | Hnone]; [exact (Hamount_row Hamt) |].
    rewrite Hwritten, Hnone.
    destruct Hkept as [Hout | Hsame]; [rewrite Hout; reflexivity |].
    rewrite Hsame. exact Hnone.
  - rewrite Hwritten.
    destruct Hkept as [Hout | Hsame]; [right; rewrite Hout; reflexivity |].
    left. exact Hsame.
  - intros Hamt H500 Husd. rewrite Hamt in Hty; simpl in Hty.
    repeat split.
    + exact Hty.
    + exact (eq_trans Hamount H500).
    + rewrite <- Hwritten. exact (eq_trans (Hamount_row Hamt) Husd).
    + exact (eq_trans Hback Hamt).
    + exact (eq_trans Hamount H500).
    + exact (eq_trans (Hamount_row Hamt) Husd).
Qed.

End RoundTrip.

Lemma Offer_create_plain_carries :
  forall (p : Offer.props) (offer : Offer.t),
    Offer_create_plain p = inr offer -> carries p offer.
Proof.
  intros p offer H. injection H as <-. unfold carries; simpl.
  assert (Hkept : option_map value (option_map VO (Offer.p_currency p)) = Offer.p_currency p)
    by (destruct (Offer.p_currency p); reflexivity).
  repeat split; auto.
Qed.

Lemma Offer_create_by_type_carries :
  forall (p : Offer.props) (offer : Offer.t),
    Offer_create_by_type p = inr offer -> carries p offer.
Proof.
  intros p offer. unfold Offer_create_by_type.
  destruct (Offer_create_plain p) as [e | plain] eqn:Hplain; [discriminate |].
  destruct (Offer_create_plain_carries p plain Hplain)
    as (Hname & Hcode & Htitle & Hdesc & Hty & Hamount & Hcadence & Hdur
        & Hfixed & Hkept & Hstatus).
  destruct (String.eqb (Offer.p_type p) "fixed") eqn:Htype.
  - destruct (Offer.p_currency p) as [c |] eqn:Hc; [| discriminate].
    rewrite <- Hc in Hfixed, Hkept.
    intros H. injection H as <-. repeat split; assumption.
  - apply String.eqb_neq in Htype.
    intros H. injection H as <-. unfold carries; simpl.
    repeat split; try assumption.
    + intros Hfix. contradiction.
    + left. reflexivity.
Qed.

(** C4, amended, on the in-memory environment, with the [Offer.create] that
    ignores the currency unless the type is fixed: [sample_row "amount"] to
    its offer and back. *)
Lemma row_offer_row_round_trip_witness :
  (forall (p : Offer.props) (offer : Offer.t),
      Offer_create_by_type p = inr offer -> carries p offer) /\
  result (run (Memory.env stripe_up upload_up)
            (mapToOffer Offer_create_by_type (Some (sample_row "amount"))
               (Some Options.empty))
            Memory.empty) = inr loaded_offer /\
  (Row.discount_type (sample_row "amount") = "amount" \/
   Row.discount_type (sample_row "amount") = "percent") /\
  (Data.name (save_data loaded_offer) = "Black Friday" /\
   Data.code (save_data loaded_offer) = "black-friday" /\
   Data.portal_title (save_data loaded_offer) = "Black Friday deal" /\
   Data.portal_description (save_data loaded_offer) = "Half a year at a discount" /\
   Data.discount_type (save_data loaded_offer) = "amount" /\
   Data.discount_amount (save_data loaded_offer) = 500%Z /\
   Data.interval (save_data loaded_offer) = "month" /\
   Data.duration (save_data loaded_offer) = "repeating" /\
   Data.active (save_data loaded_offer) = true) /\
  Data.currency (save_data loaded_offer) = Some "usd".
Proof.
  assert (Hrun : result (run (Memory.env stripe_up upload_up)
                           (mapToOffer Offer_create_by_type (Some (sample_row "amount"))
                              (Some Options.empty))
                           Memory.empty) = inr loaded_offer) by reflexivity.
  assert (Htype : Row.discount_type (sample_row "amount") = "amount" \/
                  Row.discount_type (sample_row "amount") = "percent")
    by (left; reflexivity).
  destruct (row_offer_row_round_trip Offer_create_by_type Offer_create_by_type_carries
              Memory.World (Memory.env stripe_up upload_up) Memory.empty
              (sample_row "amount") (Some Options.empty) loaded_offer Hrun Htype)
    as (Hfields & Hcurrency & _).
  split; [exact Offer_create_by_type_carries |].
  split; [exact Hrun |]. split; [exact Htype |]. split; [exact Hfields |].
  exact (Hcurrency (or_introl eq_refl)).
Defined.

(** ** The filter transformers *)

Lemma query_fields_cons :
  forall (e : Entry) (q : Query),
    query_fields (e :: q) = (entry_fields e ++ query_fields q)%list.
Proof. reflexivity. Qed.

Lemma assign_fields :
  forall (P : string -> Prop) (memo : Query) (e : Entry),
    Forall P (query_fields memo) ->
    Forall P (entry_fields e) ->
    Forall P (query_fields (assign memo e)).
Proof.
  intros P memo e Hmemo He.
  induction memo as [| x rest IH]; simpl.
  - rewrite app_nil_r. exact He.
  - rewrite query_fields_cons in Hmemo. apply Forall_app in Hmemo as [Hx Hrest].
    destruct (String.eqb (entry_key x) (entry_key e));
      rewrite query_fields_cons; apply Forall_app; auto.
Qed.

Lemma assign_object_fields :
  forall (P : string -> Prop) (obj : option (list (string * Value))) (memo : Query),
    Forall P (query_fields memo) ->
    match obj with
    | Some fields => Forall (fun kv => P (fst kv)) fields
    | None => True
    end ->
    Forall P (query_fields (assign_object memo obj)).
Proof.
  intros P [fields |]; simpl; [| auto].
  induction fields as [| kv fields IH]; simpl; intros memo Hmemo Hfields.
  - exact Hmemo.
  - inversion Hfields as [| ? ? Hkv Hrest]; subst.
    apply IH; [| exact Hrest].
    apply assign_fields; [exact Hmemo |]. simpl. constructor; [exact Hkv | constructor].
Qed.

Section MapQueryFields.

Variable fn : Value -> string -> option (list (string * Value)).
Variables Pin Pout : string -> Prop.

Hypothesis fn_fields :
  forall (v : Value) (key : string),
    Pin key ->
    match fn v key with
    | Some fields => Forall (fun kv => Pout (fst kv)) fields
    | None => True
    end.

Lemma fold_maps_fields :
  forall q : Query,
    Forall (maps_fields fn Pin Pout) q ->
    forall memo : Query,
      Forall Pin (query_fields q) ->
      Forall Pout (query_fields memo) ->
      Forall Pout (query_fields (fold_left (fun m e => mapQuery_entry fn e m) q memo)).
Proof.
  induction q as [| e q IH]; simpl; intros Hq memo Hin Hmemo.
  - exact Hmemo.
  - inversion Hq as [| ? ? He Hrest]; subst.
    apply Forall_app in Hin as [Hine Hinq].
    apply IH; [exact Hrest | exact Hinq |].
    apply He; assumption.
Qed.

Lemma mapQuery_entry_fields : forall e : Entry, maps_fields fn Pin Pout e.
Proof.
  induction e as [key v | op qs IH] using Entry_ind; intros memo Hin Hmemo; simpl.
  - apply assign_object_fields; [exact Hmemo |].
    apply fn_fields. inversion Hin; assumption.
  - apply assign_fields; [exact Hmemo |]. simpl in Hin |- *.
    induction qs as [| q qs IHqs]; simpl; [constructor |].
    inversion IH as [| ? ? Hq Hqs]; subst.
    simpl in Hin. apply Forall_app in Hin as [Hinq Hinqs].
    apply Forall_app. split.
    + apply fold_maps_fields; [exact Hq | exact Hinq | constructor].
    + apply IHqs; assumption.
Qed.

Lemma mapQuery_fields :
  forall q : Query,
    Forall Pin (query_fields q) ->
    Forall Pout (query_fields (mapQuery fn q)).
Proof.
  intros q Hin. unfold mapQuery. apply fold_maps_fields; [| exact Hin | constructor].
  apply Forall_forall. intros e _. apply mapQuery_entry_fields.
Qed.

End MapQueryFields.

(** After [rejectNonStatusTransformer] every field is named [status]. *)
Lemma rejectNonStatusTransformer_fields :
  forall input : Query,
    Forall (fun key => key = "status") (query_fields (rejectNonStatusTransformer input)).
Proof.
  intros input. unfold rejectNonStatusTransformer.
  apply mapQuery_fields with (Pin := fun _ => True).
  - intros v key _. destruct (String.eqb key "status") eqn:Hkey; simpl; [| exact I].
    apply String.eqb_eq in Hkey. constructor; [exact Hkey | constructor].
  - apply Forall_forall. intros; exact I.
Qed.

(** [statusTransformer] renames the [status] fields to [active]. *)
Lemma statusTransformer_fields :
  forall q : Query,
    Forall (fun key => key = "status") (query_fields q) ->
    Forall (fun key => key = "active") (query_fields (statusTransformer q)).
Proof.
  intros q Hq. unfold statusTransformer, mapKeyValues.
  apply mapQuery_fields with (Pin := fun key => key = "status"); [| exact Hq].
  intros v key Hkey. subst key. simpl. constructor; [reflexivity | constructor].
Qed.

Lemma lookup_absent :
  forall (key : string) (q : Query), ~ In key (keys q) -> lookup key q = None.
Proof.
  intros key q. induction q as [| e rest IH]; simpl; intros Hnot; [reflexivity |].
  rewrite IH by tauto.
  destruct (String.eqb (entry_key e) key) eqn:Hkey; [| reflexivity].
  apply String.eqb_eq in Hkey. tauto.
Qed.

Lemma assign_keys_in :
  forall (memo : Query) (e : Entry) (key : string),
    In key (keys (assign memo e)) -> In key (keys memo) \/ key = entry_key e.
Proof.
  induction memo as [| x rest IH]; simpl; intros e key Hin.
  - destruct Hin as [H | []]. right; auto.
  - destruct (String.eqb (entry_key x) (entry_key e)) eqn:Hkey; simpl in Hin.
    + apply String.eqb_eq in Hkey. destruct Hin as [H | H]; [| tauto].
      left; left. congruence.
    + destruct Hin as [H | H]; [tauto |]. destruct (IH e key H); tauto.
Qed.

Lemma assign_NoDup :
  forall (memo : Query) (e : Entry), NoDup (keys memo) -> NoDup (keys (assign memo e)).
Proof.
  induction memo as [| x rest IH]; simpl; intros e Hnd.
  - constructor; [simpl; tauto | constructor].
  - inversion Hnd as [| ? ? Hx Hrest]; subst.
    destruct (String.eqb (entry_key x) (entry_key e)) eqn:Hkey; simpl.
    + apply String.eqb_eq in Hkey. rewrite <- Hkey. constructor; assumption.
    + apply String.eqb_neq in Hkey. constructor; [| apply IH; exact Hrest].
      intros Hin. destruct (assign_keys_in rest e _ Hin); auto.
Qed.

Lemma lookup_assign :
  forall (key : string) (memo : Query) (e : Entry),
    NoDup (keys memo) ->
    lookup key (assign memo e) =
    if String.eqb (entry_key e) key then Some e else lookup key memo.
Proof.
  intros key memo e. induction memo as [| x rest IH]; simpl; intros Hnd.
  - reflexivity.
  - inversion Hnd as [| ? ? Hx Hrest]; subst.
    destruct (String.eqb (entry_key x) (entry_key e)) eqn:Hxe; simpl.
    + apply String.eqb_eq in Hxe. rewrite Hxe in *.
      destruct (String.eqb (entry_key e) key) eqn:Hek.
      * apply String.eqb_eq in Hek. subst key.
        rewrite (lookup_absent _ _ Hx). reflexivity.
      * reflexivity.
    + rewrite (IH Hrest).
      destruct (String.eqb (entry_key e) key) eqn:Hek; reflexivity.
Qed.

Lemma assign_object_NoDup :
  forall (obj : option (list (string * Value))) (memo : Query),
    NoDup (keys memo) -> NoDup (keys (assign_object memo obj)).
Proof.
  intros [fields |]; simpl; [| auto].
  induction fields as [| kv fields IH]; simpl; intros memo Hnd; [exact Hnd |].
  apply IH. apply assign_NoDup. exact Hnd.
Qed.

Lemma mapQuery_entry_NoDup :
  forall (fn : Value -> string -> option (list (string * Value))) (e : Entry) (memo : Query),
    NoDup (keys memo) -> NoDup (keys (mapQuery_entry fn e memo)).
Proof.
  intros fn [key v | op qs] memo Hnd; simpl.
  - apply assign_object_NoDup; exact Hnd.
  - apply assign_NoDup; exact Hnd.
Qed.

Lemma LogicalOp_key_not_field :
  forall op : LogicalOp,
    String.eqb (LogicalOp_key op) "status" = false /\
    String.eqb (LogicalOp_key op) "active" = false.
Proof. intros [|]; split; reflexivity. Qed.

(** [rejectNonStatusTransformer] keeps the [status] entry as it is. *)
Lemma reject_lookup_status :
  forall (q memo : Query),
    NoDup (keys memo) ->
    lookup "status"
      (fold_left (fun m e =>
                    mapQuery_entry (fun value key =>
                      if negb (String.eqb key "status") then None else Some [(key, value)])
                      e m) q memo) =
    match lookup "status" q with
    | Some e => Some e
    | None => lookup "status" memo
    end.
Proof.
  induction q as [| e rest IH]; simpl; intros memo Hnd; [reflexivity |].
  rewrite IH by (apply mapQuery_entry_NoDup; exact Hnd).
  destruct (lookup "status" rest); [reflexivity |].
  destruct e as [key v | op qs]; simpl.
  - destruct (String.eqb key "status") eqn:Hkey; simpl; [| reflexivity].
    apply String.eqb_eq in Hkey. subst key.
    rewrite lookup_assign by exact Hnd. reflexivity.
  - rewrite lookup_assign by exact Hnd. simpl.
    destruct (LogicalOp_key_not_field op) as [-> _]. reflexivity.
Qed.

(** [statusTransformer], on a query whose fields are all named [status],
    yields an [active] entry exactly from the [status] entry. *)
Lemma status_lookup_active :
  forall (q memo : Query),
    NoDup (keys memo) ->
    Forall (fun key => key = "status") (query_fields q) ->
    lookup "active"
      (fold_left (fun m e =>
                    mapQuery_entry (fun value key =>
                      if String.eqb key (KeyValueMapping.key_from statusMapping)
                      then Some [(KeyValueMapping.key_to statusMapping,
                                  mapFieldValue (KeyValueMapping.values statusMapping) value)]
                      else Some [(key, value)])
                      e m) q memo) =
    match lookup "status" q with
    | Some (Field _ v) =>
        Some (Field "active" (mapFieldValue (KeyValueMapping.values statusMapping) v))
    | Some (Group _ _) => None
    | None => lookup "active" memo
    end.
Proof.
  induction q as [| e rest IH]; simpl; intros memo Hnd Hq; [reflexivity |].
  apply Forall_app in Hq as [He Hrest].
  rewrite IH by (try apply mapQuery_entry_NoDup; assumption).
  destruct (lookup "status" rest); [reflexivity |].
  destruct e as [key v | op qs]; simpl.
  - inversion He as [| ? ? Hkey _]; subst. simpl.
    rewrite lookup_assign by exact Hnd. reflexivity.
  - rewrite lookup_assign by exact Hnd. simpl.
    destruct (LogicalOp_key_not_field op) as [-> ->]. reflexivity.
Qed.

(** What [mongoTransformer] makes of the top-level [status] entry. *)
Lemma mongoTransformer_lookup_active :
  forall q : Query,
    lookup "active" (mongoTransformer q) =
    match lookup "status" q with
    | Some (Field _ v) =>
        Some (Field "active" (mapFieldValue (KeyValueMapping.values statusMapping) v))
    | _ => None
    end.
Proof.
  intros q. unfold mongoTransformer, flowRight, statusTransformer, mapKeyValues.
  unfold mapQuery at 1.
  rewrite status_lookup_active;
    [| constructor | apply rejectNonStatusTransformer_fields].
  unfold rejectNonStatusTransformer, mapQuery.
  rewrite reject_lookup_status by constructor.
  destruct (lookup "status" q) as [[key v | op qs] |]; reflexivity.
Qed.

(** ** [getAll] *)

Lemma mapM_settled_trace :
  forall (W A : Type) (env : Env W) (pending : list (Prog A)) (w : W),
    Forall settled pending ->
    trace (run env (mapM (fun p => p) pending) w) = [] /\
    world (run env (mapM (fun p => p) pending) w) = w.
Proof.
  intros W A env pending w.
  induction pending as [| p pending IH]; simpl; intros Hall; [split; reflexivity |].
  inversion Hall as [| ? ? Hp Hrest]; subst.
  destruct (IH Hrest) as [IHtrace IHworld].
  destruct p as [a | e | ev k | X c k]; simpl in Hp; try contradiction; simpl.
  - rewrite run_bind, IHtrace, IHworld.
    destruct (result (run env (mapM (fun p => p) pending) w)); split; reflexivity.
  - split; reflexivity.
Qed.

Lemma mapM_start_counts :
  forall (W A : Type) (env : Env W) (promises : list (Prog A)) (w : W),
    Forall awaits_count promises ->
    forallb is_count (trace (run env (mapM start promises) w)) = true /\
    exists pending,
      result (run env (mapM start promises) w) = inr pending /\ Forall settled pending.
Proof.
  intros W A env promises.
  induction promises as [| p promises IH]; intros w Hall.
  - split; [reflexivity |]. exists []. split; [reflexivity | constructor].
  - inversion Hall as [| ? ? Hp Hrest]; subst.
    destruct p as [a | e | ev k | X c k]; simpl in Hp; try contradiction.
    destruct Hp as [Hc Hk].
    cbn [mapM start bind run].
    destruct (respond env c w) as [r w'].
    rewrite run_bind.
    destruct (IH w' Hrest) as (Htrace & pending & Hresult & Hsettled).
    rewrite Hresult. cbn.
    split.
    + destruct c; try contradiction. rewrite app_nil_r. exact Htrace.
    + eexists. split; [reflexivity |]. constructor; [apply Hk | exact Hsettled].
Qed.

Section GetAll.

Variable Offer_create : Offer.props -> Settled Offer.t.

Lemma mapToOffer_awaits_count :
  forall (model : Row.t) (o : Options.t),
    awaits_count (mapToOffer Offer_create (Some model) (Some o)).
Proof.
  intros model o. simpl. split; [exact I |].
  intros [e | count]; simpl; [exact I |].
  destruct (Row.product model) as [product |]; simpl; [| exact I].
  destruct (Offer_create (mapToOffer_props model count product)); exact I.
Qed.

(** The trace of [getAll]: the one [findAll], carrying [mongoTransformer] and
    the caller's filter, and after it nothing but redemption counts. *)
Lemma getAll_trace :
  forall (W : Type) (env : Env W) (w : W) (options : option Options.t),
    exists (answer : Settled (list Row.t)) (rest : list Event),
      trace (run env (getAll Offer_create options) w) =
        Called (OfferModel_findAll
                  (Options.set_withRelated
                     (Options.set_mongoTransformer (spread options) mongoTransformer)
                     ["product"])) answer :: rest /\
      forallb is_count rest = true.
Proof.
  intros W env w options. unfold getAll.
  rewrite run_bind, run_await. cbn [result world trace].
  match goal with
  | |- context [respond env ?c w] => destruct (respond env c w) as [[e | models] w']
  end; cbn [fst snd result world trace app].
  - eexists. exists []. split; reflexivity.
  - eexists. eexists. split; [reflexivity |].
    unfold Promise_all. rewrite run_bind.
    match goal with
    | |- context [run env (mapM start ?ps) w'] => assert (Hps : Forall awaits_count ps)
    end.
    { apply Forall_forall. intros p Hin. apply in_map_iff in Hin as (model & <- & _).
      exact (mapToOffer_awaits_count model _). }
    destruct (mapM_start_counts W _ env _ w' Hps) as (Htrace & pending & Hresult & Hsettled).
    rewrite Hresult. cbn [result world trace].
    rewrite (proj1 (mapM_settled_trace W _ env pending _ Hsettled)), app_nil_r.
    exact Htrace.
Qed.

End GetAll.

(** C5: [getAll] hands [mongoTransformer] to the one [findAll] it issues,
    together with the caller's filter, so the storage layer queries with the
    transformed filter. Whatever the parsed filter [q], every field of
    [mongoTransformer q], at any depth, is named [active]: no field other than
    [status] survives. The [status] entry becomes the [active] entry, with
    ['active'] turned into [true] and ['archived'] into [false], and without a
    [status] entry there is no [active] entry. *)
Theorem getAll_filters_on_status_only :
  forall (Offer_create : Offer.props -> Settled Offer.t) (W : Type) (env : Env W) (w : W)
         (options : option Options.t) (q : Query),
    (exists (findAll_options : Options.t) (answer : Settled (list Row.t)) (rest : list Event),
        trace (run env (getAll Offer_create options) w) =
          Called (OfferModel_findAll findAll_options) answer :: rest /\
        forallb is_count rest = true /\
        Options.mongoTransformer findAll_options = Some mongoTransformer /\
        Options.filter findAll_options = Options.filter (spread options)) /\
    Forall (fun key => key = "active") (query_fields (mongoTransformer q)) /\
    (forall v,
        lookup "status" q = Some (Field "status" v) ->
        lookup "active" (mongoTransformer q) =
          Some (Field "active" (mapFieldValue (KeyValueMapping.values statusMapping) v))) /\
    (lookup "status" q = Some (Field "status" (Lit (SStr "active"))) ->
     lookup "active" (mongoTransformer q) = Some (Field "active" (Lit (SBool true)))) /\
    (lookup "status" q = Some (Field "status" (Lit (SStr "archived"))) ->
     lookup "active" (mongoTransformer q) = Some (Field "active" (Lit (SBool false)))) /\
    (lookup "status" q = None -> lookup "active" (mongoTransformer q) = None) /\
    mongoTransformer [Field "status" (Lit (SStr "archived"))] =
      [Field "active" (Lit (SBool false))] /\
    mongoTransformer [Field "name" (Lit (SStr "Black Friday"));
                      Field "status" (Lit (SStr "active"))] =
      [Field "active" (Lit (SBool true))] /\
    mongoTransformer [Group And [[Field "status" (Lit (SStr "archived"))];
                                 [Field "code" (Ops [("$ne", One (SStr "black-friday"))])]]] =
      [Group And [[Field "active" (Lit (SBool false))]; []]].
Proof.
  intros Offer_create W env w options q.
  split.
  { destruct (getAll_trace Offer_create W env w options) as (answer & rest & Htrace & Hrest).
    eexists. exists answer, rest.
    split; [exact Htrace |]. split; [exact Hrest |]. split; reflexivity. }
  split.
  { unfold mongoTransformer, flowRight.
    apply statusTransformer_fields, rejectNonStatusTransformer_fields. }
  repeat split; try (intros; rewrite mongoTransformer_lookup_active);
    try match goal with
        | H : lookup "status" q = _ |- _ => rewrite H
        end; reflexivity.
Qed.

(** ** Further properties of the repository *)

(** The coupon parameters that [save] sends: a percent offer sets
    [percent_off] only, any other offer sets [amount_off] and [currency], and
    a repeating duration adds [duration_in_months]. *)
Theorem save_coupon_shape :
  forall (offer : Offer.t) (coupon : Coupon.t),
    save_coupon offer = Ret coupon ->
    Coupon.name coupon = value (Offer.name offer) /\
    Coupon.duration coupon = Duration.type (value (Offer.duration offer)) /\
    Coupon.duration_in_months coupon =
      (if String.eqb (Duration.type (value (Offer.duration offer))) "repeating"
       then Duration.months (value (Offer.duration offer))
       else None) /\
    (if String.eqb (value (Offer.type offer)) "percent"
     then Coupon.percent_off coupon = Some (value (Offer.amount offer)) /\
          Coupon.amount_off coupon = None /\
          Coupon.currency coupon = None
     else Coupon.percent_off coupon = None /\
          Coupon.amount_off coupon = Some (value (Offer.amount offer)) /\
          exists c, Offer.currency offer = Some c /\ Coupon.currency coupon = Some (value c)).
Proof.
  intros offer coupon. unfold save_coupon.
  destruct (String.eqb (value (Offer.type offer)) "percent").
  - intros H. injection H as <-. repeat split.
  - destruct (Offer.currency offer) as [c |]; [| discriminate].
    intros H. injection H as <-. repeat split. exists c. split; reflexivity.
Qed.

(** The coupon of [new_offer]. *)
Lemma save_coupon_shape_witness :
  save_coupon new_offer =
    Ret (Coupon.make "Black Friday" "repeating" (Some 6%Z) None (Some 500%Z) (Some "usd")) /\
  Coupon.amount_off
    (Coupon.make "Black Friday" "repeating" (Some 6%Z) None (Some 500%Z) (Some "usd")) =
    Some 500%Z.
Proof.
  assert (Hcoupon : save_coupon new_offer =
                    Ret (Coupon.make "Black Friday" "repeating" (Some 6%Z) None
                           (Some 500%Z) (Some "usd"))) by reflexivity.
  split; [exact Hcoupon |].
  exact (proj1 (proj2 (proj2 (proj2 (proj2 (save_coupon_shape new_offer _ Hcoupon)))))).
Defined.

(** [getById] on an id that no row has: the [findOne] read resolves to
    [null], and [getById] fails on [model.toJSON()] without counting
    redemptions. *)
Theorem getById_without_row :
  forall (Offer_create : Offer.props -> Settled Offer.t) (W : Type) (env : Env W) (w : W)
         (id : string) (options : option Options.t),
    let read := OfferModel_findOne (ById id)
                  (Some (Options.set_withRelated (spread options) ["product"])) in
    fst (respond env read w) = inr None ->
    result (run env (getById Offer_create id options) w) =
      inl (TypeError_reading "null" "toJSON") /\
    trace (run env (getById Offer_create id options) w) = [Called read (inr None)].
Proof.
  intros Offer_create W env w id options read Hnone. unfold getById.
  rewrite run_bind, run_await. fold read. rewrite Hnone. split; reflexivity.
Qed.

(** [getById] on the empty table. *)
Lemma getById_without_row_witness :
  result (run (Memory.env stripe_up upload_up)
            (getById Offer_create_plain "offer_1" (Some Options.empty)) Memory.empty) =
    inl (TypeError_reading "null" "toJSON").
Proof.
  exact (proj1 (getById_without_row Offer_create_plain Memory.World
                  (Memory.env stripe_up upload_up) Memory.empty "offer_1"
                  (Some Options.empty) eq_refl)).
Defined.

(** [getById] called without options: the row is read, and [mapToOffer]
    fails on [options.transacting] before any redemption is counted, even
    when the row exists. *)
Theorem getById_without_options :
  forall (Offer_create : Offer.props -> Settled Offer.t) (W : Type) (env : Env W) (w : W)
         (id : string) (row : Row.t),
    let read := OfferModel_findOne (ById id)
                  (Some (Options.set_withRelated Options.empty ["product"])) in
    fst (respond env read w) = inr (Some row) ->
    result (run env (getById Offer_create id None) w) =
      inl (TypeError_reading "undefined" "transacting") /\
    trace (run env (getById Offer_create id None) w) = [Called read (inr (Some row))].
Proof.
  intros Offer_create W env w id row read Hrow. unfold getById.
  rewrite run_bind, run_await. simpl spread. fold read. rewrite Hrow. split; reflexivity.
Qed.

(** [getById] without options on a table that has the row. *)
Lemma getById_without_options_witness :
  result (run (Memory.env stripe_up upload_up)
            (getById Offer_create_plain "offer_1" None)
            (Memory.make [sample_row "amount"] [] [])) =
    inl (TypeError_reading "undefined" "transacting").
Proof.
  exact (proj1 (getById_without_options Offer_create_plain Memory.World
                  (Memory.env stripe_up upload_up)
                  (Memory.make [sample_row "amount"] [] []) "offer_1"
                  (sample_row "amount") eq_refl)).
Defined.

(** ** Runs on the in-memory environment *)

Example save_new_offer_in_memory :
  let out := run (Memory.env stripe_up upload_up) (save new_offer None) Memory.empty in
  result out = inr tt /\
  map Row.stripe_coupon_id (Memory.offers (world out)) = [Some "coupon_Black Friday"] /\
  Memory.queue (world out) = [save_event new_offer].
Proof. repeat split. Qed.

Example save_renamed_offer_in_memory :
  let stored := Memory.make [sample_row "amount"] [] [] in
  let out := run (Memory.env stripe_down upload_up) (save renamed_offer None) stored in
  result out = inr tt /\
  map Row.stripe_coupon_id (Memory.offers (world out)) =
    map Row.stripe_coupon_id (Memory.offers stored) /\
  Memory.queue (world out) =
    [OfferCodeChangeEvent.create "offer_1" (Some (VO "cyber-monday")) (VO "black-friday")].
Proof. repeat split. Qed.

Example save_with_provider_down_in_memory :
  let out := run (Memory.env stripe_down upload_up) (save new_offer None) Memory.empty in
  result out = inl (Rejection "payment provider unavailable") /\
  Memory.offers (world out) = [].
Proof. repeat split. Qed.

Example getById_in_memory :
  result (run (Memory.env stripe_up upload_up)
            (getById Offer_create_plain "offer_1" (Some Options.empty))
            (Memory.make [sample_row "amount"] [] [])) = inr loaded_offer.
Proof. reflexivity. Qed.

Example getAll_in_memory :
  result (run (Memory.env stripe_up upload_up)
            (getAll Offer_create_plain (Some Options.empty))
            (Memory.make [sample_row "amount"; sample_row "amount"] ["offer_1"] [])) =
    inr [with_count loaded_offer 1; with_count loaded_offer 1].
Proof. reflexivity. Qed.

(** * Further properties *)

(** ** Promises started together *)

Lemma mapM_start_requests :
  forall (W A X I : Type) (env : Env W) (f : I -> Prog A) (c : I -> Call X)
         (s : I -> Settled X -> Settled A),
    (forall i, exists k,
        f i = Request (c i) k /\
        forall r w, run env (k r) w = mkOutcome (s i r) w []) ->
    forall (items : list I) (w : W),
    exists answers : list (Settled X),
      length answers = length items /\
      trace (run env (mapM start (map f items)) w) =
        map (fun ia => Called (c (fst ia)) (snd ia)) (combine items answers) /\
      exists pending,
        result (run env (mapM start (map f items)) w) = inr pending /\
        Forall2 (fun p out => forall w', run env p w' = mkOutcome out w' [])
          pending (map (fun ia => s (fst ia) (snd ia)) (combine items answers)).
Proof.
  intros W A X I env f c s Hf items.
  induction items as [| i items IH]; intros w.
  - exists []. repeat split. exists []. split; [reflexivity | constructor].
  - destruct (Hf i) as (k & Hfi & Hk).
    cbn [map mapM]. rewrite Hfi. cbn [start bind run].
    destruct (respond env (c i) w) as [r w'].
    rewrite run_bind.
    destruct (IH w') as (answers & Hlen & Htrace & pending & Hresult & Hpending).
    rewrite Hresult. cbn.
    exists (r :: answers). split; [simpl; congruence |]. split.
    + rewrite app_nil_r, Htrace. reflexivity.
    + eexists. split; [reflexivity |]. constructor; [apply Hk | exact Hpending].
Qed.

Lemma mapM_resumed :
  forall (W A : Type) (env : Env W) (pending : list (Prog A)) (outs : list (Settled A)),
    Forall2 (fun p out => forall w', run env p w' = mkOutcome out w' []) pending outs ->
    forall w, run env (mapM (fun p => p) pending) w = mkOutcome (all_of outs) w [].
Proof.
  intros W A env pending outs Hall.
  induction Hall as [| p out pending outs Hp _ IH]; intros w; [reflexivity |].
  cbn [mapM all_of]. rewrite run_bind, Hp. cbn.
  destruct out as [e | a]; [reflexivity |].
  rewrite run_bind, IH. cbn.
  destruct (all_of outs); reflexivity.
Qed.

Lemma all_of_resolved :
  forall (A : Type) (outs : list (Settled A)) (values : list A),
    all_of outs = inr values -> outs = map inr values.
Proof.
  intros A outs. induction outs as [| [e | a] outs IH]; simpl; intros values H.
  - injection H as <-. reflexivity.
  - discriminate.
  - destruct (all_of outs) as [e | rest]; [discriminate |].
    injection H as <-. simpl. rewrite (IH rest eq_refl). reflexivity.
Qed.

Section Queries.

Variable Offer_create : Offer.props -> Settled Offer.t.

Lemma mapToOffer_request :
  forall (W : Type) (env : Env W) (o : Options.t) (json : Row.t),
    exists k,
      mapToOffer Offer_create (Some json) (Some o) =
        Request (OfferRedemptionModel_count (Row.id json) "id"
                   (Options.make (Options.transacting o) None None None None)) k /\
      forall r w, run env (k r) w = mkOutcome (mapToOffer_settles Offer_create json r) w [].
Proof.
  intros W env o json. eexists. split; [reflexivity |].
  intros [e | n] w; simpl; [reflexivity |].
  destruct (Row.product json) as [product |]; simpl; [| reflexivity].
  destruct (Offer_create (mapToOffer_props json n product)); reflexivity.
Qed.

(** The run of [mapToOffer] on a row, with options. *)
Lemma mapToOffer_run :
  forall (W : Type) (env : Env W) (w : W) (o : Options.t) (json : Row.t),
    let count := OfferRedemptionModel_count (Row.id json) "id"
                   (Options.make (Options.transacting o) None None None None) in
    run env (mapToOffer Offer_create (Some json) (Some o)) w =
    mkOutcome (mapToOffer_settles Offer_create json (fst (respond env count w)))
      (snd (respond env count w))
      [Called count (fst (respond env count w))].
Proof.
  intros W env w o json count.
  destruct (mapToOffer_request W env o json) as (k & Heq & Hk).
  rewrite Heq. cbn [run]. fold count.
  destruct (respond env count w) as [r w']. rewrite Hk. reflexivity.
Qed.

(** The run of [getAll] once [findAll] has resolved: one count per row, in
    the order of the rows, and then the offers or the first failure. *)
Lemma getAll_run :
  forall (W : Type) (env : Env W) (w : W) (options : option Options.t)
         (models : list Row.t),
    let read := OfferModel_findAll
                  (Options.set_withRelated
                     (Options.set_mongoTransformer (spread options) mongoTransformer)
                     ["product"]) in
    let tx := match options with
              | Some o => Options.transacting o
              | None => None
              end in
    fst (respond env read w) = inr models ->
    exists answers : list (Settled Z),
      length answers = length models /\
      trace (run env (getAll Offer_create options) w) =
        Called read (inr models) :: map (count_event tx) (combine models answers) /\
      result (run env (getAll Offer_create options) w) =
        all_of (map (fun ma => mapToOffer_settles Offer_create (fst ma) (snd ma))
                  (combine models answers)).
Proof.
  intros W env w options models read tx Hread. unfold getAll.
  rewrite run_bind, run_await. fold read. rewrite Hread. cbn [result world trace].
  unfold Promise_all. rewrite run_bind.
  fold tx.
  set (mo := Options.make tx None None None None).
  destruct (mapM_start_requests W _ _ _ env
              (fun model => mapToOffer Offer_create (Some model) (Some mo))
              (fun model => OfferRedemptionModel_count (Row.id model) "id" mo)
              (mapToOffer_settles Offer_create)
              (fun model => mapToOffer_request W env mo model)
              models (snd (respond env read w)))
    as (answers & Hlen & Htrace & pending & Hresult & Hpending).
  rewrite Hresult. cbn [result world trace].
  rewrite (mapM_resumed W _ env pending _ Hpending). cbn [result world trace].
  exists answers. split; [exact Hlen |]. split.
  - rewrite app_nil_r, Htrace. reflexivity.
  - reflexivity.
Qed.

End Queries.

(** ** [mapToOffer] *)

(** [mapToOffer] makes one request, the count of the redemptions of the row
    within the transaction of the options. When the count resolves and the
    row has its joined product, it settles to what [Offer.create] returns for
    the values of the row, the count and the product, a rejection included. *)
Theorem mapToOffer_counts_then_creates :
  forall (Offer_create : Offer.props -> Settled Offer.t) (W : Type) (env : Env W)
         (w w' : W) (o : Options.t) (json : Row.t) (product : Product.t) (n : Z),
    Row.product json = Some product ->
    respond env (OfferRedemptionModel_count (Row.id json) "id"
                   (Options.make (Options.transacting o) None None None None)) w =
      (inr n, w') ->
    run env (mapToOffer Offer_create (Some json) (Some o)) w =
    mkOutcome (Offer_create (mapToOffer_props json n product)) w'
      [Called (OfferRedemptionModel_count (Row.id json) "id"
                 (Options.make (Options.transacting o) None None None None)) (inr n)].
Proof.
  intros Offer_create W env w w' o json product n Hproduct Hcount.
  rewrite mapToOffer_run, Hcount. unfold mapToOffer_settles. simpl.
  rewrite Hproduct. reflexivity.
Qed.

(** [mapToOffer] on [sample_row "amount"] in the in-memory environment. *)
Lemma mapToOffer_counts_then_creates_witness :
  run (Memory.env stripe_up upload_up)
    (mapToOffer Offer_create_plain (Some (sample_row "amount")) (Some Options.empty))
    Memory.empty =
  mkOutcome (inr loaded_offer) Memory.empty
    [Called (OfferRedemptionModel_count "offer_1" "id" Options.empty) (inr 0%Z)].
Proof.
  exact (mapToOffer_counts_then_creates Offer_create_plain Memory.World
           (Memory.env stripe_up upload_up) Memory.empty Memory.empty Options.empty
           (sample_row "amount") (Product.make "tier_1" "Gold") 0%Z eq_refl eq_refl).
Defined.

(** The failures of [mapToOffer]: a rejected count is passed on as it is, and
    a row without its joined product makes it throw on reading the product's
    id, after the count has been made. *)
Theorem mapToOffer_failures :
  forall (Offer_create : Offer.props -> Settled Offer.t) (W : Type) (env : Env W)
         (w : W) (o : Options.t) (json : Row.t),
    let count := OfferRedemptionModel_count (Row.id json) "id"
                   (Options.make (Options.transacting o) None None None None) in
    let out := run env (mapToOffer Offer_create (Some json) (Some o)) w in
    (forall e,
        fst (respond env count w) = inl e ->
        result out = inl e /\ trace out = [Called count (inl e)]) /\
    (forall n,
        fst (respond env count w) = inr n ->
        Row.product json = None ->
        result out = inl (TypeError_reading "undefined" "id") /\
        trace out = [Called count (inr n)]).
Proof.
  intros Offer_create W env w o json count out. subst out.
  rewrite mapToOffer_run. fold count. simpl. split.
  - intros e He. rewrite He. split; reflexivity.
  - intros n Hn Hproduct. rewrite Hn. simpl. rewrite Hproduct. split; reflexivity.
Qed.

(** [mapToOffer] when counting fails, and on a row without its product. *)
Lemma mapToOffer_failures_witness :
  result (run uncounted
            (mapToOffer Offer_create_plain (Some (sample_row "amount")) (Some Options.empty))
            Memory.empty) = inl (Rejection "count unavailable") /\
  result (run (Memory.env stripe_up upload_up)
            (mapToOffer Offer_create_plain (Some sample_row_without_product)
               (Some Options.empty))
            Memory.empty) = inl (TypeError_reading "undefined" "id").
Proof.
  split.
  - exact (proj1 (proj1 (mapToOffer_failures Offer_create_plain Memory.World uncounted
                           Memory.empty Options.empty (sample_row "amount"))
                    (Rejection "count unavailable") eq_refl)).
  - exact (proj1 (proj2 (mapToOffer_failures Offer_create_plain Memory.World
                           (Memory.env stripe_up upload_up) Memory.empty Options.empty
                           sample_row_without_product)
                    0%Z eq_refl eq_refl)).
Defined.

(** ** [getById] *)

(** [getById] with options, on an id whose row is found with its product:
    the row is read once with the product relation added to the caller's
    options, its redemptions are counted within the caller's transaction, and
    the result is what [Offer.create] returns for the row, the count and the
    product. Nothing else is requested. *)
Theorem getById_resolves :
  forall (Offer_create : Offer.props -> Settled Offer.t) (W : Type) (env : Env W)
         (w w1 w2 : W) (id : string) (o : Options.t) (row : Row.t)
         (product : Product.t) (n : Z),
    respond env (OfferModel_findOne (ById id)
                   (Some (Options.set_withRelated o ["product"]))) w =
      (inr (Some row), w1) ->
    Row.product row = Some product ->
    respond env (OfferRedemptionModel_count (Row.id row) "id"
                   (Options.make (Options.transacting o) None None None None)) w1 =
      (inr n, w2) ->
    run env (getById Offer_create id (Some o)) w =
    mkOutcome (Offer_create (mapToOffer_props row n product)) w2
      [Called (OfferModel_findOne (ById id)
                 (Some (Options.set_withRelated o ["product"]))) (inr (Some row));
       Called (OfferRedemptionModel_count (Row.id row) "id"
                 (Options.make (Options.transacting o) None None None None)) (inr n)].
Proof.
  intros Offer_create W env w w1 w2 id o row product n Hread Hproduct Hcount.
  unfold getById. rewrite run_bind, run_await. simpl spread. rewrite Hread.
  cbn [fst snd result world trace].
  rewrite mapToOffer_run, Hcount. unfold mapToOffer_settles.
  cbn [fst snd result world trace app]. rewrite Hproduct.
  destruct (Offer_create (mapToOffer_props row n product)); reflexivity.
Qed.

(** [getById] of the stored [sample_row "amount"], redeemed twice. *)
Lemma getById_resolves_witness :
  run (Memory.env stripe_up upload_up)
    (getById Offer_create_plain "offer_1" (Some Options.empty))
    (Memory.make [sample_row "amount"] ["offer_1"; "offer_2"; "offer_1"] []) =
  mkOutcome (inr (with_count loaded_offer 2))
    (Memory.make [sample_row "amount"] ["offer_1"; "offer_2"; "offer_1"] [])
    [Called (OfferModel_findOne (ById "offer_1")
               (Some (Options.set_withRelated Options.empty ["product"])))
            (inr (Some (sample_row "amount")));
     Called (OfferRedemptionModel_count "offer_1" "id" Options.empty) (inr 2%Z)].
Proof.
  exact (getById_resolves Offer_create_plain Memory.World (Memory.env stripe_up upload_up)
           (Memory.make [sample_row "amount"] ["offer_1"; "offer_2"; "offer_1"] [])
           (Memory.make [sample_row "amount"] ["offer_1"; "offer_2"; "offer_1"] [])
           (Memory.make [sample_row "amount"] ["offer_1"; "offer_2"; "offer_1"] [])
           "offer_1" Options.empty (sample_row "amount") (Product.make "tier_1" "Gold")
           2%Z eq_refl eq_refl eq_refl).
Defined.

(** ** Failing and harmless reads *)

(** When the first read of [getById] or of [getAll] is rejected, the
    rejection is passed on as it is and nothing else is requested: no
    redemption is counted. *)
Theorem reads_reject_unchanged :
  forall (Offer_create : Offer.props -> Settled Offer.t) (W : Type) (env : Env W)
         (w : W) (id : string) (options : option Options.t) (e : Error),
    (let read := OfferModel_findOne (ById id)
                   (Some (Options.set_withRelated (spread options) ["product"])) in
     fst (respond env read w) = inl e ->
     result (run env (getById Offer_create id options) w) = inl e /\
     trace (run env (getById Offer_create id options) w) = [Called read (inl e)]) /\
    (let read := OfferModel_findAll
                   (Options.set_withRelated
                      (Options.set_mongoTransformer (spread options) mongoTransformer)
                      ["product"]) in
     fst (respond env read w) = inl e ->
     result (run env (getAll Offer_create options) w) = inl e /\
     trace (run env (getAll Offer_create options) w) = [Called read (inl e)]).
Proof.
  intros Offer_create W env w id options e. split; intros read Hread.
  - unfold getById. rewrite run_bind, run_await. fold read. rewrite Hread.
    split; reflexivity.
  - unfold getAll. rewrite run_bind, run_await. fold read. rewrite Hread.
    split; reflexivity.
Qed.

(** Both reads with every collaborator offline. *)
Lemma reads_reject_unchanged_witness :
  result (run offline (getById Offer_create_plain "offer_1" (Some Options.empty)) tt) =
    inl (Rejection "storage offline") /\
  result (run offline (getAll Offer_create_plain None) tt) =
    inl (Rejection "storage offline").
Proof.
  split.
  - exact (proj1 (proj1 (reads_reject_unchanged Offer_create_plain unit offline tt "offer_1"
                           (Some Options.empty) (Rejection "storage offline")) eq_refl)).
  - exact (proj1 (proj2 (reads_reject_unchanged Offer_create_plain unit offline tt "offer_1"
                           None (Rejection "storage offline")) eq_refl)).
Defined.

Lemma getById_trace_reads :
  forall (Offer_create : Offer.props -> Settled Offer.t) (W : Type) (env : Env W)
         (w : W) (id : string) (options : option Options.t),
    forallb is_read (trace (run env (getById Offer_create id options) w)) = true.
Proof.
  intros Offer_create W env w id options. unfold getById.
  rewrite run_bind, run_await.
  destruct (respond env _ w) as [[e | [row |]] w1]; cbn [fst snd result world trace];
    try reflexivity.
  destruct options as [o |]; [| reflexivity].
  rewrite mapToOffer_run. reflexivity.
Qed.

Lemma counts_are_reads :
  forall tr : list Event, forallb is_count tr = true -> forallb is_read tr = true.
Proof.
  induction tr as [| x tr IH]; simpl; [reflexivity |].
  intros H. apply andb_true_iff in H as [Hx Htr].
  rewrite (IH Htr), andb_true_r.
  destruct x as [ev | X c r]; [discriminate |]. destruct c; try discriminate; reflexivity.
Qed.

(** The four queries only read: whatever the collaborators answer,
    [existsByName], [existsByCode], [getById] and [getAll] request nothing but
    [findOne], [findAll] and redemption counts. They insert and update
    nothing, create no coupon and dispatch no event. *)
Theorem queries_only_read :
  forall (Offer_create : Offer.props -> Settled Offer.t) (W : Type) (env : Env W)
         (w : W) (key : string) (options : option Options.t),
    forallb is_read (trace (run env (existsByName key options) w)) = true /\
    forallb is_read (trace (run env (existsByCode key options) w)) = true /\
    forallb is_read (trace (run env (getById Offer_create key options) w)) = true /\
    forallb is_read (trace (run env (getAll Offer_create options) w)) = true.
Proof.
  intros Offer_create W env w key options.
  split; [| split; [| split]].
  - unfold existsByName. rewrite run_bind, run_await.
    destruct (respond env _ w) as [[e | [row |]] w1]; reflexivity.
  - unfold existsByCode. rewrite run_bind, run_await.
    destruct (respond env _ w) as [[e | [row |]] w1]; reflexivity.
  - apply getById_trace_reads.
  - destruct (getAll_trace Offer_create W env w options) as (answer & rest & Htrace & Hrest).
    rewrite Htrace. simpl. apply counts_are_reads. exact Hrest.
Qed.

(** ** [getAll], row by row *)

Lemma count_events_are_counts :
  forall (tx : option Transaction) (l : list (Row.t * Settled Z)),
    List.filter is_count (map (count_event tx) l) = map (count_event tx) l.
Proof.
  intros tx l. induction l as [| ma l IH]; simpl; [reflexivity |].
  rewrite IH. reflexivity.
Qed.

(** Once [findAll] has resolved, [getAll] counts the redemptions of every
    row it returned: one count per row, in the order of the rows, each for
    the row's id and within the caller's transaction, whether or not some of
    them are rejected. Nothing else is requested. *)
Theorem getAll_counts_every_row :
  forall (Offer_create : Offer.props -> Settled Offer.t) (W : Type) (env : Env W)
         (w : W) (options : option Options.t) (models : list Row.t),
    let read := OfferModel_findAll
                  (Options.set_withRelated
                     (Options.set_mongoTransformer (spread options) mongoTransformer)
                     ["product"]) in
    let tx := match options with
              | Some o => Options.transacting o
              | None => None
              end in
    fst (respond env read w) = inr models ->
    exists answers : list (Settled Z),
      length answers = length models /\
      trace (run env (getAll Offer_create options) w) =
        Called read (inr models) :: map (count_event tx) (combine models answers) /\
      occurrences is_count (trace (run env (getAll Offer_create options) w)) =
        length models.
Proof.
  intros Offer_create W env w options models read tx Hread.
  destruct (getAll_run Offer_create W env w options models Hread)
    as (answers & Hlen & Htrace & _).
  exists answers. split; [exact Hlen |]. split; [exact Htrace |].
  rewrite Htrace. unfold occurrences. simpl.
  rewrite count_events_are_counts, length_map, length_combine, Hlen.
  apply Nat.min_id.
Qed.

(** [getAll] on a table of two rows. *)
Lemma getAll_counts_every_row_witness :
  occurrences is_count
    (trace (run (Memory.env stripe_up upload_up)
              (getAll Offer_create_plain (Some Options.empty)) two_rows)) = 2.
Proof.
  destruct (getAll_counts_every_row Offer_create_plain Memory.World
              (Memory.env stripe_up upload_up) two_rows (Some Options.empty)
              [sample_row "amount"; sample_row "percent"] eq_refl)
    as (answers & _ & _ & Hcount).
  exact Hcount.
Defined.

Lemma settled_rows_resolved :
  forall (Offer_create : Offer.props -> Settled Offer.t) (models : list Row.t)
         (answers : list (Settled Z)) (offers : list Offer.t),
    length answers = length models ->
    map (fun ma => mapToOffer_settles Offer_create (fst ma) (snd ma))
        (combine models answers) = map inr offers ->
    Forall2 (fun model offer =>
               exists n product,
                 Row.product model = Some product /\
                 Offer_create (mapToOffer_props model n product) = inr offer)
            models offers.
Proof.
  intros Offer_create models.
  induction models as [| model models IH]; intros answers offers Hlen Hmap.
  - destruct offers; [constructor | discriminate].
  - destruct answers as [| r answers]; [discriminate |].
    destruct offers as [| offer offers]; [discriminate |].
    simpl in Hlen, Hmap. injection Hlen as Hlen. injection Hmap as Hhead Htail.
    constructor; [| exact (IH answers offers Hlen Htail)].
    unfold mapToOffer_settles in Hhead.
    destruct r as [e | n]; [discriminate |].
    destruct (Row.product model) as [product |]; [| discriminate].
    exists n, product. split; [reflexivity | exact Hhead].
Qed.

(** When [getAll] resolves, it resolves to one offer per row that [findAll]
    returned, in the order of the rows: each offer is what [Offer.create]
    made of its row, a count and the row's product. *)
Theorem getAll_offers_in_row_order :
  forall (Offer_create : Offer.props -> Settled Offer.t) (W : Type) (env : Env W)
         (w : W) (options : option Options.t) (models : list Row.t)
         (offers : list Offer.t),
    fst (respond env
           (OfferModel_findAll
              (Options.set_withRelated
                 (Options.set_mongoTransformer (spread options) mongoTransformer)
                 ["product"])) w) = inr models ->
    result (run env (getAll Offer_create options) w) = inr offers ->
    Forall2 (fun model offer =>
               exists n product,
                 Row.product model = Some product /\
                 Offer_create (mapToOffer_props model n product) = inr offer)
            models offers.
Proof.
  intros Offer_create W env w options models offers Hread Hresult.
  destruct (getAll_run Offer_create W env w options models Hread)
    as (answers & Hlen & _ & Hout).
  rewrite Hout in Hresult.
  apply (settled_rows_resolved Offer_create models answers offers Hlen).
  apply all_of_resolved. exact Hresult.
Qed.

(** [getAll] on a table of two rows: two offers, the [amount] row first. *)
Lemma getAll_offers_in_row_order_witness :
  exists first second,
    result (run (Memory.env stripe_up upload_up)
              (getAll Offer_create_plain (Some Options.empty)) two_rows) =
      inr [first; second] /\
    value (Offer.type first) = "fixed" /\
    value (Offer.type second) = "percent" /\
    Forall2 (fun model offer =>
               exists n product,
                 Row.product model = Some product /\
                 Offer_create_plain (mapToOffer_props model n product) = inr offer)
            [sample_row "amount"; sample_row "percent"] [first; second].
Proof.
  eexists. eexists.
  split; [reflexivity |]. split; [reflexivity |]. split; [reflexivity |].
  exact (getAll_offers_in_row_order Offer_create_plain Memory.World
           (Memory.env stripe_up upload_up) two_rows (Some Options.empty)
           [sample_row "amount"; sample_row "percent"] _ eq_refl eq_refl).
Defined.

Lemma rejected_count_fails_all :
  forall (Offer_create : Offer.props -> Settled Offer.t) (tx : option Transaction)
         (l : list (Row.t * Settled Z)),
    existsb rejected (map (count_event tx) l) = true ->
    exists e,
      all_of (map (fun ma => mapToOffer_settles Offer_create (fst ma) (snd ma)) l) = inl e.
Proof.
  intros Offer_create tx l.
  induction l as [| [model r] l IH]; simpl; [discriminate |].
  destruct r as [e | n]; simpl.
  - intros _. exists e. reflexivity.
  - intros H. destruct (IH H) as [e He].
    destruct (Row.product model) as [product |]; [| eexists; reflexivity].
    destruct (Offer_create (mapToOffer_props model n product)) as [e' | offer];
      [eexists; reflexivity |].
    rewrite He. exists e. reflexivity.
Qed.

(** [getAll] is all or nothing: if any request it made was rejected, be it
    [findAll] or the count for a single row, [getAll] rejects and returns no
    offers at all. *)
Theorem getAll_all_or_nothing :
  forall (Offer_create : Offer.props -> Settled Offer.t) (W : Type) (env : Env W)
         (w : W) (options : option Options.t),
    existsb rejected (trace (run env (getAll Offer_create options) w)) = true ->
    exists e, result (run env (getAll Offer_create options) w) = inl e.
Proof.
  intros Offer_create W env w options.
  destruct (fst (respond env
                   (OfferModel_findAll
                      (Options.set_withRelated
                         (Options.set_mongoTransformer (spread options) mongoTransformer)
                         ["product"])) w)) as [e | models] eqn:Hread.
  - intros _. exists e. unfold getAll. rewrite run_bind, run_await, Hread. reflexivity.
  - destruct (getAll_run Offer_create W env w options models Hread)
      as (answers & _ & Htrace & Hout).
    rewrite Htrace, Hout. simpl. apply rejected_count_fails_all.
Qed.

(** [getAll] on two rows whose redemptions cannot be counted. *)
Lemma getAll_all_or_nothing_witness :
  existsb rejected
    (trace (run uncounted (getAll Offer_create_plain (Some Options.empty)) two_rows)) = true /\
  exists e,
    result (run uncounted (getAll Offer_create_plain (Some Options.empty)) two_rows) = inl e.
Proof.
  assert (H : existsb rejected
                (trace (run uncounted (getAll Offer_create_plain (Some Options.empty))
                          two_rows)) = true) by reflexivity.
  split; [exact H |].
  exact (getAll_all_or_nothing Offer_create_plain Memory.World uncounted two_rows
           (Some Options.empty) H).
Defined.

(** ** [save], further *)

(** A rejected insert: [save] rejects with the rejection of the insert, after
    the coupon has been created at the payment provider. The insert is the
    last thing [save] requests: the coupon is not taken back and the insert is
    not tried again. *)
Theorem save_insert_rejected_after_coupon :
  forall (W : Type) (env : Env W) (w : W) (offer : Offer.t) (options : option Options.t),
    existsb insert_rejected (trace (run env (save offer options) w)) = true ->
    exists (coupon : Coupon.t) (couponData : CouponData.t) (e : Error),
      Offer.isNew offer = true /\
      trace (run env (save offer options) w) =
        [Dispatched (save_event offer);
         Called (stripeAPIService_createCoupon coupon) (inr couponData);
         Called (OfferModel_add
                   (Data.set_stripe_coupon_id (save_data offer) (CouponData.id couponData))
                   options) (inl e)] /\
      result (run env (save offer options) w) = inl e.
Proof.
  intros W env w offer options.
  destruct (Offer.isNew offer) eqn:Hnew.
  - destruct (save_coupon_cases offer) as [[coupon Hcoupon] | (_ & Htype & Hcur)].
    + rewrite (save_new_run W env w offer options coupon Hnew Hcoupon); simpl.
      destruct (fst (respond env (stripeAPIService_createCoupon coupon)
                       (deliver env (save_event offer) w))) as [e | cd]; simpl;
        [discriminate |].
      match goal with
      | |- context [fst (respond env ?c ?w')] => destruct (fst (respond env c w')) as [e | u]
      end; simpl; [| discriminate].
      intros _. exists coupon, cd, e. repeat split.
    + rewrite (save_new_without_currency W env w offer options Hnew Htype Hcur); simpl.
      discriminate.
  - rewrite (save_existing_run W env w offer options Hnew); simpl.
    destruct (Offer.codeChanged offer); simpl; discriminate.
Qed.

(** [save] of [new_offer] into a table that rejects inserts. *)
Lemma save_insert_rejected_after_coupon_witness :
  existsb insert_rejected
    (trace (run read_only_store (save new_offer None) Memory.empty)) = true /\
  exists (coupon : Coupon.t) (couponData : CouponData.t) (e : Error),
    Offer.isNew new_offer = true /\
    trace (run read_only_store (save new_offer None) Memory.empty) =
      [Dispatched (save_event new_offer);
       Called (stripeAPIService_createCoupon coupon) (inr couponData);
       Called (OfferModel_add
                 (Data.set_stripe_coupon_id (save_data new_offer) (CouponData.id couponData))
                 None) (inl e)] /\
    result (run read_only_store (save new_offer None) Memory.empty) = inl e.
Proof.
  assert (H : existsb insert_rejected
                (trace (run read_only_store (save new_offer None) Memory.empty)) = true)
    by reflexivity.
  split; [exact H |].
  exact (save_insert_rejected_after_coupon Memory.World read_only_store Memory.empty
           new_offer None H).
Defined.

(** A new offer that is not a percent offer and has no currency: [save]
    dispatches the code-change event and then throws on reading the
    currency's value. No coupon is requested and nothing is inserted. *)
Theorem save_new_without_currency_throws :
  forall (W : Type) (env : Env W) (w : W) (offer : Offer.t) (options : option Options.t),
    Offer.isNew offer = true ->
    value (Offer.type offer) <> "percent" ->
    Offer.currency offer = None ->
    result (run env (save offer options) w) = inl (TypeError_reading "null" "value") /\
    trace (run env (save offer options) w) = [Dispatched (save_event offer)] /\
    world (run env (save offer options) w) = deliver env (save_event offer) w.
Proof.
  intros W env w offer options Hnew Htype Hcur.
  apply String.eqb_neq in Htype.
  rewrite (save_new_without_currency W env w offer options Hnew Htype Hcur).
  repeat split.
Qed.

(** [save] of [new_offer] without its currency: the event is queued, the
    table stays empty. *)
Lemma save_new_without_currency_throws_witness :
  result (run (Memory.env stripe_up upload_up) (save (without_currency new_offer) None)
            Memory.empty) = inl (TypeError_reading "null" "value") /\
  Memory.offers (world (run (Memory.env stripe_up upload_up)
                          (save (without_currency new_offer) None) Memory.empty)) = [] /\
  Memory.queue (world (run (Memory.env stripe_up upload_up)
                         (save (without_currency new_offer) None) Memory.empty)) =
    [save_event new_offer].
Proof.
  assert (Htype : value (Offer.type (without_currency new_offer)) <> "percent")
    by discriminate.
  destruct (save_new_without_currency_throws Memory.World (Memory.env stripe_up upload_up)
              Memory.empty (without_currency new_offer) None eq_refl Htype eq_refl)
    as (Hresult & _ & Hworld).
  split; [exact Hresult |]. rewrite Hworld. split; reflexivity.
Defined.

(** The coupon and the row of a new offer describe the same discount: name,
    duration and months are the same; a [percent] offer is stored as
    [percent] and sent as [percent_off], a [fixed] offer is stored as
    [amount] and sent as [amount_off] with the stored currency. An offer of
    any other type is stored as [percent] but sent as [amount_off]. *)
Theorem save_coupon_matches_row :
  forall (offer : Offer.t) (coupon : Coupon.t),
    save_coupon offer = Ret coupon ->
    Coupon.name coupon = Data.name (save_data offer) /\
    Coupon.duration coupon = Data.duration (save_data offer) /\
    Coupon.duration_in_months coupon = Data.duration_in_months (save_data offer) /\
    (value (Offer.type offer) = "percent" ->
     Data.discount_type (save_data offer) = "percent" /\
     Coupon.percent_off coupon = Some (Data.discount_amount (save_data offer)) /\
     Coupon.amount_off coupon = None /\
     Coupon.currency coupon = None) /\
    (value (Offer.type offer) = "fixed" ->
     Data.discount_type (save_data offer) = "amount" /\
     Coupon.amount_off coupon = Some (Data.discount_amount (save_data offer)) /\
     Coupon.percent_off coupon = None /\
     Coupon.currency coupon = Data.currency (save_data offer) /\
     Coupon.currency coupon <> None) /\
    (value (Offer.type offer) <> "percent" ->
     value (Offer.type offer) <> "fixed" ->
     Data.discount_type (save_data offer) = "percent" /\
     Coupon.percent_off coupon = None /\
     Coupon.amount_off coupon = Some (Data.discount_amount (save_data offer))).
Proof.
  intros offer coupon. unfold save_coupon, save_data; simpl.
  destruct (String.eqb (value (Offer.type offer)) "percent") eqn:Hpercent.
  - apply String.eqb_eq in Hpercent. intros H. injection H as <-.
    rewrite Hpercent. simpl.
    repeat split; intros; try reflexivity; congruence.
  - apply String.eqb_neq in Hpercent.
    destruct (Offer.currency offer) as [c |]; [| discriminate].
    intros H. injection H as <-. simpl.
    destruct (String.eqb (value (Offer.type offer)) "fixed") eqn:Hfixed;
      [apply String.eqb_eq in Hfixed | apply String.eqb_neq in Hfixed];
      repeat split; intros; try reflexivity; try congruence; discriminate.
Qed.

(** The coupon and the row of [new_offer]. *)
Lemma save_coupon_matches_row_witness :
  exists coupon,
    save_coupon new_offer = Ret coupon /\
    Coupon.amount_off coupon = Some (Data.discount_amount (save_data new_offer)) /\
    Coupon.currency coupon = Data.currency (save_data new_offer).
Proof.
  eexists. split; [reflexivity |].
  destruct (save_coupon_matches_row new_offer _ eq_refl)
    as (_ & _ & _ & _ & Hfixed & _).
  destruct (Hfixed eq_refl) as (_ & Hamount & _ & Hcurrency & _).
  split; [exact Hamount | exact Hcurrency].
Defined.

(** ** Row to offer and back, the remaining columns *)

Section RoundTripIdentity.

Variable Offer_create : Offer.props -> Settled Offer.t.

Hypothesis Offer_create_carries_identity :
  forall (p : Offer.props) (offer : Offer.t),
    Offer_create p = inr offer -> carries_identity p offer.

(** For an [Offer.create] that keeps id, tier and duration: the data that
    [save] builds from the offer of a row has the row's id, the id of the
    row's joined product as [product_id], and no [stripe_coupon_id]. The
    row's [duration_in_months] comes back only when the duration is
    [repeating]; for any other duration [null] is written in its place. *)
Theorem row_offer_row_identity :
  forall (W : Type) (env : Env W) (w : W) (json : Row.t) (options : option Options.t)
         (offer : Offer.t),
    result (run env (mapToOffer Offer_create (Some json) options) w) = inr offer ->
    Data.id (save_data offer) = Row.id json /\
    (exists product,
        Row.product json = Some product /\
        Data.product_id (save_data offer) = Product.id product) /\
    Data.duration_in_months (save_data offer) =
      (if String.eqb (Row.duration json) "repeating"
       then Row.duration_in_months json
       else None) /\
    Data.stripe_coupon_id (save_data offer) = None.
Proof.
  intros W env w json options offer Hrun.
  destruct (mapToOffer_resolved Offer_create W env w json options offer Hrun)
    as (n & product & Hproduct & Hcreate).
  destruct (Offer_create_carries_identity _ _ Hcreate) as (Hid & Htier & Hdur & Hmonths).
  simpl in Hid, Htier, Hdur, Hmonths.
  split; [exact Hid |]. split.
  - exists product. split; [exact Hproduct |].
    unfold save_data; simpl. rewrite Htier. reflexivity.
  - split; [| reflexivity].
    unfold save_data; simpl. rewrite Hdur, Hmonths. reflexivity.
Qed.

End RoundTripIdentity.

Lemma Offer_create_plain_carries_identity :
  forall (p : Offer.props) (offer : Offer.t),
    Offer_create_plain p = inr offer -> carries_identity p offer.
Proof.
  intros p offer H. injection H as <-. repeat split.
Qed.

(** The row without product relation cannot be mapped; [sample_row "amount"]
    can, and a row that is not repeating loses its months on the way back. *)
Lemma row_offer_row_identity_witness :
  (forall (p : Offer.props) (offer : Offer.t),
      Offer_create_plain p = inr offer -> carries_identity p offer) /\
  result (run (Memory.env stripe_up upload_up)
            (mapToOffer Offer_create_plain (Some (sample_row "amount")) (Some Options.empty))
            Memory.empty) = inr loaded_offer /\
  Data.id (save_data loaded_offer) = "offer_1" /\
  (exists product,
      Row.product (sample_row "amount") = Some product /\
      Data.product_id (save_data loaded_offer) = Product.id product) /\
  Data.duration_in_months (save_data loaded_offer) = Some 6%Z /\
  Data.stripe_coupon_id (save_data loaded_offer) = None.
Proof.
  assert (Hrun : result (run (Memory.env stripe_up upload_up)
                           (mapToOffer Offer_create_plain (Some (sample_row "amount"))
                              (Some Options.empty))
                           Memory.empty) = inr loaded_offer) by reflexivity.
  split; [exact Offer_create_plain_carries_identity |]. split; [exact Hrun |].
  exact (row_offer_row_identity Offer_create_plain Offer_create_plain_carries_identity
           Memory.World (Memory.env stripe_up upload_up) Memory.empty
           (sample_row "amount") (Some Options.empty) loaded_offer Hrun).
Defined.

(** Whatever the offer and whatever the collaborators answer, [save] asks
    the payment provider for at most one coupon and writes at most once, by
    an insert or by an update. It inserts only a new offer, and only after
    the one coupon request; it updates only an offer that is not new, and
    then requests no coupon. It never reads: no [findOne], [findAll] or count
    is requested, so nothing is looked up before the write. *)
Theorem save_writes_at_most_once :
  forall (W : Type) (env : Env W) (w : W) (offer : Offer.t) (options : option Options.t),
    occurrences is_createCoupon (trace (run env (save offer options) w)) <= 1 /\
    occurrences is_insert (trace (run env (save offer options) w)) +
    occurrences is_update (trace (run env (save offer options) w)) <= 1 /\
    (occurrences is_insert (trace (run env (save offer options) w)) = 1 ->
     Offer.isNew offer = true /\
     occurrences is_createCoupon (trace (run env (save offer options) w)) = 1) /\
    (occurrences is_update (trace (run env (save offer options) w)) = 1 ->
     Offer.isNew offer = false /\
     occurrences is_createCoupon (trace (run env (save offer options) w)) = 0) /\
    existsb is_read (trace (run env (save offer options) w)) = false.
Proof.
  intros W env w offer options.
  destruct (Offer.isNew offer) eqn:Hnew.
  - destruct (save_coupon_cases offer) as [[coupon Hcoupon] | (_ & Htype & Hcur)].
    + rewrite (save_new_run W env w offer options coupon Hnew Hcoupon); simpl.
      destruct (fst (respond env (stripeAPIService_createCoupon coupon)
                       (deliver env (save_event offer) w))) as [e | cd];
        unfold occurrences; simpl; repeat split; try lia; discriminate.
    + rewrite (save_new_without_currency W env w offer options Hnew Htype Hcur).
      unfold occurrences; simpl; repeat split; try lia; discriminate.
  - rewrite (save_existing_run W env w offer options Hnew).
    destruct (Offer.codeChanged offer);
      unfold occurrences; simpl; repeat split; try lia; discriminate.
Qed.
